(** * Glass cutting optimizer (src/main.py): the packing engine and its free-space tracker

    The classes of src/main.py are embedded one module per class, twice.
    The first embedding runs the code on Python [int] lengths, as the literals
    of the catalog and of the demand of src/test.py are: Python's integers
    are unbounded, so these are [Z] and every sum, difference and product is
    exact.  The second, module [F64], runs the same code on [float] lengths,
    the type the source declares and [transform_glass_data] passes: IEEE
    binary64 numbers whose operations round.  The theorems about exact
    geometry and exact areas are about the first; what rounding does to them
    is computed on the second.  A Python exception is a [Raise]; the two
    [while] loops of [optimize_cutting] that are not bounded by a list take a
    fuel argument. *)

From stdpp Require Import gmap strings list.
From Stdlib Require Import ZArith QArith Lia Lqa Sorted Ascii DecimalString DecimalZ Floats.

Local Open Scope Z_scope.

(** ** Exceptions and results *)

Inductive exn : Type :=
  | ValueError (msg : string)
  | IndexError.

Inductive outcome (A : Type) : Type :=
  | Ok (a : A)
  | Raise (e : exn)
  | OutOfFuel.

Arguments Ok {A} a.
Arguments Raise {A} e.
Arguments OutOfFuel {A}.

Definition bind {A B : Type} (c : outcome A) (k : A -> outcome B) : outcome B :=
  match c with
  | Ok a => k a
  | Raise e => Raise e
  | OutOfFuel => OutOfFuel
  end.

#[global] Instance outcome_bind : MBind outcome := fun A B k c => bind c k.
#[global] Instance outcome_ret : MRet outcome := fun A a => Ok a.

(** ** class StockSheet *)

Module StockSheet.

Record t : Type := mk
  { thickness_mm : Z;
    width_mm : Z;
    height_mm : Z }.

(** [__post_init__]: every dimension must be positive.  On [int] the test
    [dim <= 0] is the negation of [0 < dim]; [F64.StockSheet.new] below is
    the test on [float], where it is not. *)
Definition new (thickness width height : Z) : outcome t :=
  if existsb (fun dim => dim <=? 0) [thickness; width; height]
  then Raise (ValueError "All dimensions must be positive")
  else Ok (mk thickness width height).

Definition positive (s : t) : Prop :=
  0 < thickness_mm s /\ 0 < width_mm s /\ 0 < height_mm s.

End StockSheet.

(** ** class GlassInventory *)

Module GlassInventory.

Record t : Type := mk
  { stock_sizes : gmap string StockSheet.t }.

(** [__init__]: the six sheets of the shop. *)
Definition init : t :=
  mk (<["FIL6" := StockSheet.mk 6 3600 2600]>
     (<["HN6" := StockSheet.mk 6 3300 2600]>
     (<["CL10" := StockSheet.mk 10 3600 2600]>
     (<["CL6" := StockSheet.mk 6 3300 2600]>
     (<["CL4" := StockSheet.mk 4 2440 1830]>
     (<["CL3" := StockSheet.mk 3 2440 1830]> ∅)))))).

Definition get_stock_sheet (self : t) (code : string) : outcome StockSheet.t :=
  match stock_sizes self !! code with
  | None => Raise (ValueError ("No stock sheet available for code " +:+ code))
  | Some s => Ok s
  end.

Definition add_stock_size (self : t) (code : string)
    (thickness width height : Z) : outcome t :=
  s ← StockSheet.new thickness width height;
  Ok (mk (<[code := s]> (stock_sizes self))).

End GlassInventory.

(** ** class Rectangle *)

Module Rectangle.

Record t : Type := mk
  { width : Z;
    height : Z;
    quantity : Z;
    thickness_mm : option Z;
    rotated : bool;
    position : option (Z * Z) }.

Definition new (width height quantity : Z) (thickness : option Z) : t :=
  mk width height quantity thickness false None.

Definition can_rotate (r : t) : bool :=
  negb (width r =? height r).

Definition get_dimensions (r : t) : Z * Z :=
  if rotated r then (height r, width r) else (width r, height r).

(** The two attribute assignments the packing code performs on a rectangle. *)
Definition set_rotated (b : bool) (r : t) : t :=
  mk (width r) (height r) (quantity r) (thickness_mm r) b (position r).

Definition set_position (p : Z * Z) (r : t) : t :=
  mk (width r) (height r) (quantity r) (thickness_mm r) (rotated r) (Some p).

End Rectangle.

(** A free region [(x, y, width, height)], as the tuples of [Sheet.spaces],
    on [int] lengths; [F64.Space] below is the same on [float] lengths. *)
Definition Space : Type := (Z * Z * Z * Z)%type.

(** [list.pop(i)] of Python: a negative index counts from the end, an index
    out of range raises. *)
Definition list_pop {A : Type} (l : list A) (i : Z) : outcome (list A) :=
  let n := Z.of_nat (length l) in
  let j := if i <? 0 then i + n else i in
  if (0 <=? j) && (j <? n) then Ok (delete (Z.to_nat j) l) else Raise IndexError.

(** ** class Sheet *)

Module Sheet.

Record t : Type := mk
  { stock_sheet : StockSheet.t;
    width : Z;
    height : Z;
    thickness : Z;
    placed_rectangles : list Rectangle.t;
    spaces : list Space }.

Definition new (stock : StockSheet.t) : t :=
  mk stock (StockSheet.width_mm stock) (StockSheet.height_mm stock)
     (StockSheet.thickness_mm stock) []
     [(0, 0, StockSheet.width_mm stock, StockSheet.height_mm stock)].

(** The four locals of [find_best_space]; [min_waste = None] is [float('inf')]. *)
Record search : Type := mk_search
  { best_space : option Space;
    best_space_index : Z;
    min_waste : option Z;
    should_rotate : bool }.

Definition search_init : search := mk_search None (-1) None false.

Definition waste_lt (waste : Z) (m : option Z) : bool :=
  match m with
  | None => true
  | Some m => waste <? m
  end.

(** One iteration of the [for space_index, space in enumerate(self.spaces)] loop. *)
Definition scan_space (rectangle : Rectangle.t) (st : search)
    (space_index : Z) (space : Space) : search :=
  let '(x, y, space_width, space_height) := space in
  let st1 :=
    if (Rectangle.width rectangle <=? space_width)
       && (Rectangle.height rectangle <=? space_height)
    then
      let waste := space_width * space_height
                   - Rectangle.width rectangle * Rectangle.height rectangle in
      if waste_lt waste (min_waste st)
      then mk_search (Some space) space_index (Some waste) false
      else st
    else st in
  if Rectangle.can_rotate rectangle
     && (Rectangle.height rectangle <=? space_width)
     && (Rectangle.width rectangle <=? space_height)
  then
    let waste := space_width * space_height
                 - Rectangle.width rectangle * Rectangle.height rectangle in
    if waste_lt waste (min_waste st1)
    then mk_search (Some space) space_index (Some waste) true
    else st1
  else st1.

Fixpoint scan_spaces (rectangle : Rectangle.t) (st : search)
    (space_index : Z) (l : list Space) : search :=
  match l with
  | [] => st
  | space :: rest =>
      scan_spaces rectangle (scan_space rectangle st space_index space)
                  (space_index + 1) rest
  end.

Definition find_best_space (s : t) (rectangle : Rectangle.t) : option Space * Z * bool :=
  let st := scan_spaces rectangle search_init 0 (spaces s) in
  (best_space st, best_space_index st, should_rotate st).

(** The two conditional appends of [place_rectangle]. *)
Definition split_space (space : Space) (rect_width rect_height : Z) : list Space :=
  let '(x, y, space_width, space_height) := space in
  (if space_width >? rect_width
   then [(x + rect_width, y, space_width - rect_width, space_height)] else [])
  ++
  (if space_height >? rect_height
   then [(x, y + rect_height, rect_width, space_height - rect_height)] else []).

Definition place_rectangle (s : t) (rectangle : Rectangle.t)
    (space : Space) (space_index : Z) : outcome t :=
  let '(x, y, space_width, space_height) := space in
  let '(rect_width, rect_height) := Rectangle.get_dimensions rectangle in
  popped ← list_pop (spaces s) space_index;
  Ok (mk (stock_sheet s) (width s) (height s) (thickness s)
         (placed_rectangles s ++ [Rectangle.set_position (x, y) rectangle])
         (popped ++ split_space space rect_width rect_height)).

End Sheet.

(** ** class GlassCuttingOptimizer *)

Module GlassCuttingOptimizer.

(** The nested loops that create one [Rectangle] per requested unit. *)
Definition create_rectangles (thickness : Z) (pieces : list (Z * Z * Z))
  : list Rectangle.t :=
  flat_map (fun '(width, height, quantity) =>
              replicate (Z.to_nat quantity)
                        (Rectangle.new width height 1 (Some thickness)))
           pieces.

Definition area (r : Rectangle.t) : Z := Rectangle.width r * Rectangle.height r.

(** [rectangles.sort(key=area, reverse=True)]: Python's sort is stable, also
    with [reverse=True], so the result is the one stable descending order. *)
Fixpoint insert_desc (r : Rectangle.t) (l : list Rectangle.t) : list Rectangle.t :=
  match l with
  | [] => [r]
  | r' :: rest =>
      if area r' <=? area r then r :: r' :: rest else r' :: insert_desc r rest
  end.

Definition sort_desc (l : list Rectangle.t) : list Rectangle.t :=
  foldr insert_desc [] l.

(** The innermost loop, [while i < len(unplaced_rectangles)]: the rectangle at
    [i] is either placed and popped (the next one slides to index [i]) or kept
    and [i] advances.  The result is the sheet, the rectangles left in the
    pool in their order, and [placed_any]. *)
Fixpoint place_pass (current_sheet : Sheet.t) (unplaced : list Rectangle.t)
  : outcome (Sheet.t * list Rectangle.t * bool) :=
  match unplaced with
  | [] => Ok (current_sheet, [], false)
  | rect :: rest =>
      match Sheet.find_best_space current_sheet rect with
      | (Some best_space, space_index, should_rotate) =>
          sheet' ← Sheet.place_rectangle current_sheet
                     (Rectangle.set_rotated should_rotate rect)
                     best_space space_index;
          '(sheet'', rest', _) ← place_pass sheet' rest;
          Ok (sheet'', rest', true)
      | (None, _, _) =>
          '(sheet'', rest', placed_any) ← place_pass current_sheet rest;
          Ok (sheet'', rect :: rest', placed_any)
      end
  end.

(** [while placed_any]: passes over the pool on the same sheet until one
    places nothing. *)
Fixpoint fill_sheet (fuel : nat) (current_sheet : Sheet.t) (unplaced : list Rectangle.t)
  : outcome (Sheet.t * list Rectangle.t) :=
  match fuel with
  | O => OutOfFuel
  | S fuel' =>
      '(sheet', unplaced', placed_any) ← place_pass current_sheet unplaced;
      if placed_any : bool then fill_sheet fuel' sheet' unplaced'
      else Ok (sheet', unplaced')
  end.

(** One round of [while unplaced_rectangles]: open a sheet, append it to
    [sheets] and fill it. *)
Definition open_sheet (fuel : nat) (stock : StockSheet.t)
    (st : list Sheet.t * list Rectangle.t) : outcome (list Sheet.t * list Rectangle.t) :=
  '(sheet, unplaced') ← fill_sheet fuel (Sheet.new stock) (snd st);
  Ok (fst st ++ [sheet], unplaced').

Fixpoint pack_loop (fuel : nat) (stock : StockSheet.t)
    (sheets : list Sheet.t) (unplaced : list Rectangle.t) : outcome (list Sheet.t) :=
  match unplaced with
  | [] => Ok sheets
  | _ :: _ =>
      match fuel with
      | O => OutOfFuel
      | S fuel' =>
          '(sheets', unplaced') ← open_sheet fuel' stock (sheets, unplaced);
          pack_loop fuel' stock sheets' unplaced'
      end
  end.

Definition optimize_cutting (inventory : GlassInventory.t) (fuel : nat)
    (glass_code : string) (pieces : list (Z * Z * Z)) : outcome (list Sheet.t) :=
  stock ← GlassInventory.get_stock_sheet inventory glass_code;
  let rectangles :=
    sort_desc (create_rectangles (StockSheet.thickness_mm stock) pieces) in
  pack_loop fuel stock [] rectangles.

End GlassCuttingOptimizer.

Import GlassCuttingOptimizer.

(** ** Geometry of free regions and footprints *)

Definition sp_x (sp : Space) : Z := sp.1.1.1.
Definition sp_y (sp : Space) : Z := sp.1.1.2.
Definition sp_w (sp : Space) : Z := sp.1.2.
Definition sp_h (sp : Space) : Z := sp.2.

(** The piece fits the region in the given orientation ([rot = true]: turned
    by a quarter, which [can_rotate] must allow). *)
Definition fits (r : Rectangle.t) (sp : Space) (rot : bool) : Prop :=
  if rot
  then Rectangle.can_rotate r = true
       /\ Rectangle.height r <= sp_w sp /\ Rectangle.width r <= sp_h sp
  else Rectangle.width r <= sp_w sp /\ Rectangle.height r <= sp_h sp.

Definition waste (r : Rectangle.t) (sp : Space) : Z :=
  sp_w sp * sp_h sp - Rectangle.width r * Rectangle.height r.

(** What the locals of [find_best_space] know after the regions [pre] have
    been scanned for the piece [r]. *)
Record scan_inv (r : Rectangle.t) (pre : list Space) (st : Sheet.search) : Prop :=
  mk_scan_inv
  { scan_none :
      Sheet.best_space st = None ->
      Sheet.min_waste st = None /\ Sheet.best_space_index st = -1
      /\ Sheet.should_rotate st = false
      /\ forall (j : nat) sp o, pre !! j = Some sp -> ~ fits r sp o;
    scan_some :
      forall sp, Sheet.best_space st = Some sp ->
      Sheet.min_waste st = Some (waste r sp)
      /\ 0 <= Sheet.best_space_index st
      /\ pre !! Z.to_nat (Sheet.best_space_index st) = Some sp
      /\ fits r sp (Sheet.should_rotate st)
      /\ (Sheet.should_rotate st = true -> ~ fits r sp false)
      /\ forall (j : nat) sp' o, pre !! j = Some sp' -> fits r sp' o ->
           waste r sp <= waste r sp'
           /\ ((j < Z.to_nat (Sheet.best_space_index st))%nat -> waste r sp < waste r sp') }.

(** ** Footprints, the sheet invariant and the states of a packing run *)

(** Where a placed piece lies: its position and its dimensions after the
    rotation flag has been applied. *)
Definition footprint (r : Rectangle.t) : option Space :=
  match Rectangle.position r with
  | Some (x, y) =>
      Some (x, y, (Rectangle.get_dimensions r).1, (Rectangle.get_dimensions r).2)
  | None => None
  end.

(** [a] lies in [b]. *)
Definition within (a b : Space) : Prop :=
  sp_x b <= sp_x a /\ sp_y b <= sp_y a
  /\ sp_x a + sp_w a <= sp_x b + sp_w b
  /\ sp_y a + sp_h a <= sp_y b + sp_h b.

(** The rectangle lies on a sheet of the given width and height. *)
Definition inside (sheet_width sheet_height : Z) (a : Space) : Prop :=
  0 <= sp_x a /\ 0 <= sp_y a
  /\ sp_x a + sp_w a <= sheet_width /\ sp_y a + sp_h a <= sheet_height.

(** The two rectangles intersect in more than an edge. *)
Definition overlap (a b : Space) : Prop :=
  sp_x a < sp_x b + sp_w b /\ sp_x b < sp_x a + sp_w a
  /\ sp_y a < sp_y b + sp_h b /\ sp_y b < sp_y a + sp_h a.

Definition disjoint (a b : Space) : Prop := ~ overlap a b.

(** The square millimetre with lower left corner [pt] belongs to the rectangle. *)
Definition covers (a : Space) (pt : Z * Z) : Prop :=
  sp_x a <= pt.1 < sp_x a + sp_w a /\ sp_y a <= pt.2 < sp_y a + sp_h a.

Definition placed_apart (p q : Rectangle.t) : Prop :=
  forall fp fq, footprint p = Some fp -> footprint q = Some fq -> disjoint fp fq.

Definition clear_of (p : Rectangle.t) (sp : Space) : Prop :=
  forall fp, footprint p = Some fp -> disjoint fp sp.

Definition covered_by_space (s : Sheet.t) (pt : Z * Z) : Prop :=
  exists sp, sp ∈ Sheet.spaces s /\ covers sp pt.

Definition covered_by_piece (s : Sheet.t) (pt : Z * Z) : Prop :=
  exists p f, p ∈ Sheet.placed_rectangles s /\ footprint p = Some f /\ covers f pt.

Definition on_sheet (s : Sheet.t) (pt : Z * Z) : Prop :=
  covers (0, 0, Sheet.width s, Sheet.height s) pt.

(** Every element of the list is related to every later one. *)
Fixpoint pairwise {A : Type} (R : A -> A -> Prop) (l : list A) : Prop :=
  match l with
  | [] => True
  | a :: l' => Forall (R a) l' /\ pairwise R l'
  end.

Record sheet_inv (s : Sheet.t) : Prop := mk_sheet_inv
  { inv_spaces_inside :
      Forall (inside (Sheet.width s) (Sheet.height s)) (Sheet.spaces s);
    inv_placed_inside :
      Forall (fun p => exists f, footprint p = Some f
                                 /\ inside (Sheet.width s) (Sheet.height s) f)
             (Sheet.placed_rectangles s);
    inv_placed_apart : pairwise placed_apart (Sheet.placed_rectangles s);
    inv_placed_clear :
      Forall (fun p => Forall (clear_of p) (Sheet.spaces s)) (Sheet.placed_rectangles s);
    inv_spaces_apart : pairwise disjoint (Sheet.spaces s);
    inv_cover :
      forall pt, on_sheet s pt -> covered_by_space s pt \/ covered_by_piece s pt }.

(** The data model's pieces: both dimensions positive. *)
Definition positive_dims (r : Rectangle.t) : Prop :=
  0 < Rectangle.width r /\ 0 < Rectangle.height r.

(** The piece fits the stock sheet in at least one orientation. *)
Definition fits_stock (stock : StockSheet.t) (r : Rectangle.t) : Prop :=
  (Rectangle.width r <= StockSheet.width_mm stock
   /\ Rectangle.height r <= StockSheet.height_mm stock)
  \/ (Rectangle.height r <= StockSheet.width_mm stock
      /\ Rectangle.width r <= StockSheet.height_mm stock).

(** The states a sheet goes through while it is being packed: it is opened
    empty, and each step is the body of the innermost loop of
    [optimize_cutting] on a piece satisfying [P] for which the search found a
    region. *)
Inductive packing_state (P : Rectangle.t -> Prop) (stock : StockSheet.t)
  : Sheet.t -> Prop :=
  | packing_new : packing_state P stock (Sheet.new stock)
  | packing_place s r sp i rot s' :
      packing_state P stock s ->
      P r ->
      Sheet.find_best_space s r = (Some sp, i, rot) ->
      Sheet.place_rectangle s (Rectangle.set_rotated rot r) sp i = Ok s' ->
      packing_state P stock s'.

Definition total_placed (sheets : list Sheet.t) : nat :=
  sum_list (map (fun s => length (Sheet.placed_rectangles s)) sheets).

Definition total_quantity (pieces : list (Z * Z * Z)) : Z :=
  foldr (fun p acc => p.2 + acc) 0 pieces.

(** The piece as the sheet stores it after a successful search, and where it lies. *)
Definition committed (r : Rectangle.t) (sp : Space) (rot : bool) : Rectangle.t :=
  Rectangle.set_position (sp_x sp, sp_y sp) (Rectangle.set_rotated rot r).

Definition committed_footprint (r : Rectangle.t) (sp : Space) (rot : bool) : Space :=
  (sp_x sp, sp_y sp,
   (Rectangle.get_dimensions (Rectangle.set_rotated rot r)).1,
   (Rectangle.get_dimensions (Rectangle.set_rotated rot r)).2).

(** The search finds the piece no region on any sheet of a run. *)
Definition never_placed (P : Rectangle.t -> Prop) (stock : StockSheet.t)
    (r : Rectangle.t) : Prop :=
  forall s, packing_state P stock s -> Sheet.find_best_space s r = (None, -1, false).

(** A line of the demand [(width, height, quantity)] as the data model has
    it, with both dimensions positive, and one that fits the stock sheet in at
    least one orientation. *)
Definition piece_positive (pc : Z * Z * Z) : Prop :=
  0 < pc.1.1 /\ 0 < pc.1.2.

Definition piece_fits (stock : StockSheet.t) (pc : Z * Z * Z) : Prop :=
  (pc.1.1 <= StockSheet.width_mm stock /\ pc.1.2 <= StockSheet.height_mm stock)
  \/ (pc.1.2 <= StockSheet.width_mm stock /\ pc.1.1 <= StockSheet.height_mm stock).

(** Inputs used to run the model: the 6 mm sheet of the catalog and three
    pieces cut from it. *)
Definition CL6 : StockSheet.t := StockSheet.mk 6 3300 2600.

Definition tall_piece : Rectangle.t := Rectangle.new 2600 3300 1 (Some 6).

Definition square_piece : Rectangle.t := Rectangle.new 500 500 1 (Some 6).

Definition long_piece : Rectangle.t := Rectangle.new 4000 100 1 (Some 6).

(** The sheets [optimize_cutting] returns for one square piece and for two. *)
Definition square_sheet : Sheet.t :=
  Sheet.mk CL6 3300 2600 6
    [committed square_piece (0, 0, 3300, 2600) false]
    [(500, 0, 2800, 2600); (0, 500, 500, 2100)].

Definition pair_sheet : Sheet.t :=
  Sheet.mk CL6 3300 2600 6
    [committed square_piece (0, 0, 3300, 2600) false;
     committed square_piece (0, 500, 500, 2100) false]
    [(500, 0, 2800, 2600); (0, 1000, 500, 1600)].

(** The exact quantities of the efficiency report ([convert_sheet_to_dict]):
    [total_area], [used_area], and the area still free. *)
Definition total_area (s : Sheet.t) : Z := Sheet.width s * Sheet.height s.

Definition used_area (s : Sheet.t) : Z :=
  foldr (fun rect acc => Rectangle.width rect * Rectangle.height rect + acc) 0
        (Sheet.placed_rectangles s).

Definition sum_areas (l : list Space) : Z :=
  foldr (fun n acc => sp_w n * sp_h n + acc) 0 l.

(** ** src/utils.py: thickness and name of an item code

    A Python [str] is read as a [string] of code points below 256; an item
    that is not a [str] is an [Other].  *)

Module Utils.

Inductive value (O : Type) : Type :=
  | Str (s : string)
  | Other (o : O).

Arguments Str {O} s.
Arguments Other {O} o.

(** [str.isdigit] on one character: the ten decimal digits and, below 256,
    the superscripts two, three and one (code points 178, 179 and 185). *)
Definition isdigit (c : Ascii.ascii) : bool :=
  let n := Ascii.nat_of_ascii c in
  ((48 <=? n)%nat && (n <=? 57)%nat) || (n =? 178)%nat || (n =? 179)%nat || (n =? 185)%nat.

(** [item.rstrip(c)] for a one-character set. *)
Fixpoint rstrip (c : Ascii.ascii) (s : string) : string :=
  match s with
  | EmptyString => EmptyString
  | String a s' =>
      match rstrip c s' with
      | EmptyString => if Ascii.eqb a c then EmptyString else String a EmptyString
      | t => String a t
      end
  end.

(** The loop [for char in item: if char.isdigit(): digits += char]. *)
Fixpoint digits_of (s : string) : string :=
  match s with
  | EmptyString => EmptyString
  | String c s' => if isdigit c then String c (digits_of s') else digits_of s'
  end.

(** [int(digits)] on a string of digit characters: its value in base ten
    when they are all decimal digits (leading zeros allowed), and a
    [ValueError] for the empty string and for a superscript digit.  Item
    codes are short: the refusal of recent interpreters to convert strings of
    several thousand digits is not modelled. *)
Definition int_of_digits (digits : string) : outcome Z :=
  match NilZero.uint_of_string digits with
  | Some d => Ok (Z.of_uint d)
  | None => Raise (ValueError "invalid literal for int() with base 10")
  end.

(** [str(n)], as the f-string formats an [int]. *)
Definition str_of_int (n : Z) : string := NilZero.string_of_int (Z.to_int n).

Definition extract_thickness {O : Type} (item : value O) : outcome (option Z) :=
  match item with
  | Other _ => Ok None
  | Str item =>
      let item := rstrip "T"%char item in
      let digits := digits_of item in
      let body :=
        if negb (String.eqb digits EmptyString)
        then n ← int_of_digits digits; Ok (Some n)
        else Ok None in
      match body with
      | Raise (ValueError _) => Ok None
      | other => other
      end
  end.

Definition transform_item_name {O : Type} (item : value O) : outcome (value O) :=
  match item with
  | Other _ => Ok item
  | Str _ =>
      thickness ← extract_thickness item;
      match thickness with
      | None => Ok item
      | Some thickness => Ok (Str ("CL" +:+ str_of_int thickness))
      end
  end.

End Utils.

(** ** Further notions: the run as a whole *)

(** The piece as it was requested: the rotation flag and the position, which
    only the packing loop writes, are those of a new [Rectangle]. *)
Definition requested (r : Rectangle.t) : Rectangle.t :=
  Rectangle.new (Rectangle.width r) (Rectangle.height r)
                (Rectangle.quantity r) (Rectangle.thickness_mm r).

(** All the pieces of a list of sheets, sheet after sheet. *)
Definition all_placed (sheets : list Sheet.t) : list Rectangle.t :=
  concat (map Sheet.placed_rectangles sheets).

(** The area a demand asks for. *)
Definition demand_area (pieces : list (Z * Z * Z)) : Z :=
  foldr (fun pc acc => pc.1.1 * pc.1.2 * pc.2 + acc) 0 pieces.

(** The integer locals of the summary in [convert_results_to_json] and
    [optimize_all_glass]: [total_area] and [used_area] over the sheets of one
    material ([total_pieces] is [total_placed], [total_sheets] the length). *)
Definition summary_total_area (sheets : list Sheet.t) : Z :=
  foldr (fun sheet acc => Sheet.width sheet * Sheet.height sheet + acc) 0 sheets.

Definition summary_used_area (sheets : list Sheet.t) : Z :=
  foldr (fun sheet acc => used_area sheet + acc) 0 sheets.

(** The inventories a program can hold: the one [__init__] builds, changed
    by calls of [add_stock_size] that did not raise. *)
Inductive built : GlassInventory.t -> Prop :=
  | built_init : built GlassInventory.init
  | built_add inv code thickness width height inv' :
      built inv ->
      GlassInventory.add_stock_size inv code thickness width height = Ok inv' ->
      built inv'.

(** No piece placed on a later sheet fits a free region of an earlier one. *)
Definition unfit_on (s t : Sheet.t) : Prop :=
  forall p, p ∈ Sheet.placed_rectangles t ->
            Sheet.find_best_space s p = (None, -1, false).

(** [sum(rect.width * rect.height for rect in ...)] over a list of pieces. *)
Definition sum_piece_areas (l : list Rectangle.t) : Z :=
  foldr (fun rect acc => Rectangle.width rect * Rectangle.height rect + acc) 0 l.

(** A piece of which the 6 mm sheet takes one only, and the sheet holding it. *)
Definition wide_piece : Rectangle.t := Rectangle.new 2000 1500 1 (Some 6).

Definition wide_sheet : Sheet.t :=
  Sheet.mk CL6 3300 2600 6
    [committed wide_piece (0, 0, 3300, 2600) false]
    [(2000, 0, 1300, 2600); (0, 1500, 2000, 1100)].

(** ** The efficiency of a sheet, exactly

    [convert_sheet_to_dict] and the per-sheet part of [optimize_all_glass]
    divide the used area by the sheet area with no test of the divisor; a
    Python division by zero raises [ZeroDivisionError].  On integer lengths
    the quotient is the rational below, of which the reported
    [round(efficiency, 2)] is a rounding. *)

Inductive division (A : Type) : Type :=
  | Quotient (x : A)
  | ZeroDivisionError.

Arguments Quotient {A} x.
Arguments ZeroDivisionError {A}.

Definition efficiency (s : Sheet.t) : division Q :=
  if total_area s =? 0 then ZeroDivisionError
  else Quotient (inject_Z (used_area s) / inject_Z (total_area s) * 100)%Q.



(** ** The same classes on binary64 lengths

    The classes above run the code on Python [int] lengths, as the literals
    of the catalog are.  [src/main.py] declares every length as [float], and
    [transform_glass_data] hands [float(...)] values to the optimizer: module
    [F64] is the code of the same classes once more, line by line, with the
    lengths as IEEE binary64 numbers and the operations those of Python's
    [float]: sums, differences and products round to nearest, and [nan <= 0]
    is false.  Counts and indexes stay integers. *)

#[local] Set Warnings "-inexact-float".

Module F64.

Module StockSheet.

Record t : Type := mk
  { thickness_mm : Z;
    width_mm : float;
    height_mm : float }.

(** [__post_init__]: [any(dim <= 0 for dim in [...])]. *)
Definition new (thickness : Z) (width height : float) : outcome t :=
  if (thickness <=? 0) || (width <=? 0)%float || (height <=? 0)%float
  then Raise (ValueError "All dimensions must be positive")
  else Ok (mk thickness width height).

End StockSheet.

Module GlassInventory.

Record t : Type := mk
  { stock_sizes : gmap string StockSheet.t }.

Definition init : t :=
  mk (<["FIL6" := StockSheet.mk 6 3600 2600]>
     (<["HN6" := StockSheet.mk 6 3300 2600]>
     (<["CL10" := StockSheet.mk 10 3600 2600]>
     (<["CL6" := StockSheet.mk 6 3300 2600]>
     (<["CL4" := StockSheet.mk 4 2440 1830]>
     (<["CL3" := StockSheet.mk 3 2440 1830]> ∅)))))).

Definition get_stock_sheet (self : t) (code : string) : outcome StockSheet.t :=
  match stock_sizes self !! code with
  | None => Raise (ValueError ("No stock sheet available for code " +:+ code))
  | Some s => Ok s
  end.

Definition add_stock_size (self : t) (code : string)
    (thickness : Z) (width height : float) : outcome t :=
  s ← StockSheet.new thickness width height;
  Ok (mk (<[code := s]> (stock_sizes self))).

End GlassInventory.

Module Rectangle.

Record t : Type := mk
  { width : float;
    height : float;
    quantity : Z;
    thickness_mm : option Z;
    rotated : bool;
    position : option (float * float) }.

Definition new (width height : float) (quantity : Z) (thickness : option Z) : t :=
  mk width height quantity thickness false None.

Definition can_rotate (r : t) : bool :=
  negb (width r =? height r)%float.

Definition get_dimensions (r : t) : float * float :=
  if rotated r then (height r, width r) else (width r, height r).

Definition set_rotated (b : bool) (r : t) : t :=
  mk (width r) (height r) (quantity r) (thickness_mm r) b (position r).

Definition set_position (p : float * float) (r : t) : t :=
  mk (width r) (height r) (quantity r) (thickness_mm r) (rotated r) (Some p).

End Rectangle.

(** A free region [(x, y, width, height)]. *)
Definition Space : Type := (float * float * float * float)%type.

Module Sheet.

Record t : Type := mk
  { stock_sheet : StockSheet.t;
    width : float;
    height : float;
    thickness : Z;
    placed_rectangles : list Rectangle.t;
    spaces : list Space }.

Definition new (stock : StockSheet.t) : t :=
  mk stock (StockSheet.width_mm stock) (StockSheet.height_mm stock)
     (StockSheet.thickness_mm stock) []
     [(0%float, 0%float, StockSheet.width_mm stock, StockSheet.height_mm stock)].

Record search : Type := mk_search
  { best_space : option Space;
    best_space_index : Z;
    min_waste : float;
    should_rotate : bool }.

Definition search_init : search := mk_search None (-1) infinity false.

Definition scan_space (rectangle : Rectangle.t) (st : search)
    (space_index : Z) (space : Space) : search :=
  let '(x, y, space_width, space_height) := space in
  let st1 :=
    if (Rectangle.width rectangle <=? space_width)%float
       && (Rectangle.height rectangle <=? space_height)%float
    then
      let waste := (space_width * space_height
                    - Rectangle.width rectangle * Rectangle.height rectangle)%float in
      if (waste <? min_waste st)%float
      then mk_search (Some space) space_index waste false
      else st
    else st in
  if Rectangle.can_rotate rectangle
     && (Rectangle.height rectangle <=? space_width)%float
     && (Rectangle.width rectangle <=? space_height)%float
  then
    let waste := (space_width * space_height
                  - Rectangle.width rectangle * Rectangle.height rectangle)%float in
    if (waste <? min_waste st1)%float
    then mk_search (Some space) space_index waste true
    else st1
  else st1.

Fixpoint scan_spaces (rectangle : Rectangle.t) (st : search)
    (space_index : Z) (l : list Space) : search :=
  match l with
  | [] => st
  | space :: rest =>
      scan_spaces rectangle (scan_space rectangle st space_index space)
                  (space_index + 1) rest
  end.

Definition find_best_space (s : t) (rectangle : Rectangle.t) : option Space * Z * bool :=
  let st := scan_spaces rectangle search_init 0 (spaces s) in
  (best_space st, best_space_index st, should_rotate st).

Definition split_space (space : Space) (rect_width rect_height : float) : list Space :=
  let '(x, y, space_width, space_height) := space in
  (if (rect_width <? space_width)%float
   then [((x + rect_width)%float, y, (space_width - rect_width)%float, space_height)]
   else [])
  ++
  (if (rect_height <? space_height)%float
   then [(x, (y + rect_height)%float, rect_width, (space_height - rect_height)%float)]
   else []).

Definition place_rectangle (s : t) (rectangle : Rectangle.t)
    (space : Space) (space_index : Z) : outcome t :=
  let '(x, y, space_width, space_height) := space in
  let '(rect_width, rect_height) := Rectangle.get_dimensions rectangle in
  popped ← list_pop (spaces s) space_index;
  Ok (mk (stock_sheet s) (width s) (height s) (thickness s)
         (placed_rectangles s ++ [Rectangle.set_position (x, y) rectangle])
         (popped ++ split_space space rect_width rect_height)).

End Sheet.

Definition create_rectangles (thickness : Z) (pieces : list (float * float * Z))
  : list Rectangle.t :=
  flat_map (fun '(width, height, quantity) =>
              replicate (Z.to_nat quantity)
                        (Rectangle.new width height 1 (Some thickness)))
           pieces.

Definition area (r : Rectangle.t) : float :=
  (Rectangle.width r * Rectangle.height r)%float.

(** The stable descending sort, for keys that are numbers (no [nan]). *)
Fixpoint insert_desc (r : Rectangle.t) (l : list Rectangle.t) : list Rectangle.t :=
  match l with
  | [] => [r]
  | r' :: rest =>
      if (area r' <=? area r)%float then r :: r' :: rest else r' :: insert_desc r rest
  end.

Definition sort_desc (l : list Rectangle.t) : list Rectangle.t :=
  foldr insert_desc [] l.

Fixpoint place_pass (current_sheet : Sheet.t) (unplaced : list Rectangle.t)
  : outcome (Sheet.t * list Rectangle.t * bool) :=
  match unplaced with
  | [] => Ok (current_sheet, [], false)
  | rect :: rest =>
      match Sheet.find_best_space current_sheet rect with
      | (Some best_space, space_index, should_rotate) =>
          sheet' ← Sheet.place_rectangle current_sheet
                     (Rectangle.set_rotated should_rotate rect)
                     best_space space_index;
          '(sheet'', rest', _) ← place_pass sheet' rest;
          Ok (sheet'', rest', true)
      | (None, _, _) =>
          '(sheet'', rest', placed_any) ← place_pass current_sheet rest;
          Ok (sheet'', rect :: rest', placed_any)
      end
  end.

Fixpoint fill_sheet (fuel : nat) (current_sheet : Sheet.t) (unplaced : list Rectangle.t)
  : outcome (Sheet.t * list Rectangle.t) :=
  match fuel with
  | O => OutOfFuel
  | S fuel' =>
      '(sheet', unplaced', placed_any) ← place_pass current_sheet unplaced;
      if placed_any : bool then fill_sheet fuel' sheet' unplaced'
      else Ok (sheet', unplaced')
  end.

Fixpoint pack_loop (fuel : nat) (stock : StockSheet.t)
    (sheets : list Sheet.t) (unplaced : list Rectangle.t) : outcome (list Sheet.t) :=
  match unplaced with
  | [] => Ok sheets
  | _ :: _ =>
      match fuel with
      | O => OutOfFuel
      | S fuel' =>
          '(sheet, unplaced') ← fill_sheet fuel' (Sheet.new stock) unplaced;
          pack_loop fuel' stock (sheets ++ [sheet]) unplaced'
      end
  end.

Definition optimize_cutting (inventory : GlassInventory.t) (fuel : nat)
    (glass_code : string) (pieces : list (float * float * Z)) : outcome (list Sheet.t) :=
  stock ← GlassInventory.get_stock_sheet inventory glass_code;
  let rectangles :=
    sort_desc (create_rectangles (StockSheet.thickness_mm stock) pieces) in
  pack_loop fuel stock [] rectangles.

(** Where a placed piece lies, and the tests of the testable properties as
    a Python check evaluates them. *)
Definition footprint (r : Rectangle.t) : option Space :=
  match Rectangle.position r with
  | Some (x, y) =>
      Some (x, y, (Rectangle.get_dimensions r).1, (Rectangle.get_dimensions r).2)
  | None => None
  end.

Definition beyond_sheet (s : Sheet.t) (a : Space) : bool :=
  let '(x, y, w, h) := a in
  (x <? 0)%float || (y <? 0)%float
  || (Sheet.width s <? x + w)%float || (Sheet.height s <? y + h)%float.

Definition overlap (a b : Space) : bool :=
  let '(ax, ay, aw, ah) := a in
  let '(bx, b_y, bw, bh) := b in
  (ax <? bx + bw)%float && (bx <? ax + aw)%float
  && (ay <? b_y + bh)%float && (b_y <? ay + ah)%float.

(** The locals [total_area], [used_area] and [efficiency] of
    [convert_sheet_to_dict]; [sum] adds from the left, starting at 0, and a
    division by zero raises. *)
Definition total_area (s : Sheet.t) : float := (Sheet.width s * Sheet.height s)%float.

Definition used_area (s : Sheet.t) : float :=
  fold_left (fun acc rect => (acc + Rectangle.width rect * Rectangle.height rect)%float)
            (Sheet.placed_rectangles s) 0%float.

Definition efficiency (s : Sheet.t) : division float :=
  if (total_area s =? 0)%float then ZeroDivisionError
  else Quotient (used_area s / total_area s * 100)%float.

(** The inventories a program can hold. *)
Inductive built : GlassInventory.t -> Prop :=
  | built_init : built GlassInventory.init
  | built_add inv code thickness width height inv' :
      built inv ->
      GlassInventory.add_stock_size inv code thickness width height = Ok inv' ->
      built inv'.

(** The rational number a finite binary64 number is (0 for both zeros). *)
Definition exact (f : float) : Q :=
  match Prim2SF f with
  | S754_finite s m e => (inject_Z (if s then Z.neg m else Z.pos m) * Qpower 2 e)%Q
  | _ => 0%Q
  end.

(** The tests of [beyond_sheet] and [overlap] on the numbers themselves: no
    sum is rounded. *)
Definition exactly_beyond (s : Sheet.t) (a : Space) : Prop :=
  let '(x, y, w, h) := a in
  (exact x < 0 \/ exact y < 0
   \/ exact (Sheet.width s) < exact x + exact w
   \/ exact (Sheet.height s) < exact y + exact h)%Q.

Definition exactly_overlap (a b : Space) : Prop :=
  let '(ax, ay, aw, ah) := a in
  let '(bx, b_y, bw, bh) := b in
  (exact ax < exact bx + exact bw /\ exact bx < exact ax + exact aw
   /\ exact ay < exact b_y + exact bh /\ exact b_y < exact ay + exact ah)%Q.

(** A line of the demand with both dimensions positive. *)
Definition piece_positive (pc : float * float * Z) : bool :=
  (0 <? pc.1.1)%float && (0 <? pc.1.2)%float.

End F64.

(** An integer length as a binary64 number (exact below 2^53), and the
    values of the integer classes as values of the binary64 ones. *)
Definition float_of_Z (z : Z) : float :=
  if z <? 0 then (- PrimFloat.of_uint63 (Uint63.of_Z (- z)))%float
  else PrimFloat.of_uint63 (Uint63.of_Z z).

Definition float_stock (s : StockSheet.t) : F64.StockSheet.t :=
  F64.StockSheet.mk (StockSheet.thickness_mm s)
    (float_of_Z (StockSheet.width_mm s)) (float_of_Z (StockSheet.height_mm s)).

Definition float_inventory (inv : GlassInventory.t) : F64.GlassInventory.t :=
  F64.GlassInventory.mk (float_stock <$> GlassInventory.stock_sizes inv).

Definition float_rectangle (r : Rectangle.t) : F64.Rectangle.t :=
  F64.Rectangle.mk (float_of_Z (Rectangle.width r)) (float_of_Z (Rectangle.height r))
    (Rectangle.quantity r) (Rectangle.thickness_mm r) (Rectangle.rotated r)
    (match Rectangle.position r with
     | Some (x, y) => Some (float_of_Z x, float_of_Z y)
     | None => None
     end).

Definition float_space (n : Space) : F64.Space :=
  let '(x, y, w, h) := n in (float_of_Z x, float_of_Z y, float_of_Z w, float_of_Z h).

Definition float_sheet (s : Sheet.t) : F64.Sheet.t :=
  F64.Sheet.mk (float_stock (Sheet.stock_sheet s))
    (float_of_Z (Sheet.width s)) (float_of_Z (Sheet.height s)) (Sheet.thickness s)
    (map float_rectangle (Sheet.placed_rectangles s))
    (map float_space (Sheet.spaces s)).

Definition float_demand (pieces : list (Z * Z * Z)) : list (float * float * Z) :=
  map (fun '(w, h, q) => (float_of_Z w, float_of_Z h, q)) pieces.

(** *** Demands in tenths of a millimetre

    Three pieces, each as high as the 6 mm sheet, whose widths are 3300 mm
    together, and the sheet the run returns for them. *)
Definition edge_demand : list (float * float * Z) :=
  [(1200.2, 2600, 1%Z); (1094.4, 2600, 1%Z); (1005.4, 2600, 1%Z)]%float.

Definition edge_piece : F64.Rectangle.t :=
  F64.Rectangle.mk 1005.4 2600 1 (Some 6) false (Some (2294.6000000000004, 0))%float.

Definition edge_footprint : F64.Space :=
  (2294.6000000000004, 0, 1005.4, 2600)%float.

Definition edge_sheet : F64.Sheet.t :=
  F64.Sheet.mk (F64.StockSheet.mk 6 3300 2600) 3300 2600 6
    [F64.Rectangle.mk 1200.2 2600 1 (Some 6) false (Some (0, 0))%float;
     F64.Rectangle.mk 1094.4 2600 1 (Some 6) false (Some (1200.2, 0))%float;
     edge_piece]
    [(3300.0000000000005, 0, 1.1368683772161603e-13, 2600)]%float.

(** Four pieces of which two end up side by side, and the sheet the run
    returns for them. *)
Definition crossing_demand : list (float * float * Z) :=
  [(284.2, 610.7, 1%Z); (610.7, 284.2, 1%Z); (894.9, 1594.9, 1%Z);
   (47.4, 1989.3, 1%Z)]%float.

Definition lying_piece : F64.Rectangle.t :=
  F64.Rectangle.mk 610.7 284.2 1 (Some 6) false (Some (284.2, 1594.9))%float.

Definition strip_piece : F64.Rectangle.t :=
  F64.Rectangle.mk 47.4 1989.3 1 (Some 6) false (Some (894.9, 0))%float.

Definition lying_footprint : F64.Space := (284.2, 1594.9, 610.7, 284.2)%float.

Definition strip_footprint : F64.Space := (894.9, 0, 47.4, 1989.3)%float.

Definition lower_region : F64.Space :=
  (284.2, 1879.1000000000001, 610.7, 720.89999999999986)%float.

Definition corner_region : F64.Space :=
  (894.9, 1989.3, 47.4, 610.7)%float.

Definition crossing_sheet : F64.Sheet.t :=
  F64.Sheet.mk (F64.StockSheet.mk 6 3300 2600) 3300 2600 6
    [F64.Rectangle.mk 894.9 1594.9 1 (Some 6) false (Some (0, 0))%float;
     F64.Rectangle.mk 284.2 610.7 1 (Some 6) false (Some (0, 1594.9))%float;
     lying_piece;
     strip_piece]
    [(0, 2205.6000000000004, 284.2, 394.39999999999986)%float;
     lower_region;
     (942.3, 0, 2357.7, 2600)%float;
     corner_region].




(** * Properties *)

(** ** The best-fit search *)

Section BestFit.

Variable r : Rectangle.t.

Lemma scan_inv_init : scan_inv r [] Sheet.search_init.
Proof.
  split; simpl.
  - intros _. repeat split; try reflexivity. intros j sp o H. destruct j; discriminate.
  - intros sp H. discriminate.
Qed.

Lemma fits_false_iff (sp : Space) :
  fits r sp false <->
  (Rectangle.width r <=? sp_w sp) && (Rectangle.height r <=? sp_h sp) = true.
Proof. unfold fits. rewrite andb_true_iff, !Z.leb_le. tauto. Qed.

Lemma fits_true_iff (sp : Space) :
  fits r sp true <->
  Rectangle.can_rotate r && (Rectangle.height r <=? sp_w sp)
    && (Rectangle.width r <=? sp_h sp) = true.
Proof. unfold fits. rewrite !andb_true_iff, !Z.leb_le. tauto. Qed.

Lemma scan_space_inv (pre : list Space) (st : Sheet.search) (sp : Space) :
  scan_inv r pre st ->
  scan_inv r (pre ++ [sp]) (Sheet.scan_space r st (Z.of_nat (length pre)) sp).
Proof.
  intros [Hn Hs].
  pose proof (fits_false_iff sp) as Hf. pose proof (fits_true_iff sp) as Ht.
  assert (Hw : waste r sp = sp_w sp * sp_h sp - Rectangle.width r * Rectangle.height r)
    by reflexivity.
  destruct sp as [[[x y] sw] sh].
  unfold Sheet.scan_space. unfold sp_w, sp_h in Hf, Ht, Hw. simpl in Hf, Ht, Hw.
  rewrite <- Hw. clear Hw.
  set (sp := (x, y, sw, sh)) in *.
  assert (Hlast : (pre ++ [sp]) !! length pre = Some sp).
  { apply list_lookup_middle. reflexivity. }
  assert (Hold : forall (j : nat) sp', (pre ++ [sp]) !! j = Some sp' ->
            ((j < length pre)%nat /\ pre !! j = Some sp')
            \/ (j = length pre /\ sp' = sp)).
  { intros j sp' H. apply lookup_snoc_Some in H.
    destruct H as [[? ?]|[? ?]]; [left|right]; auto. }
  assert (Hkeep : forall (j : nat) sp', pre !! j = Some sp' ->
            (pre ++ [sp]) !! j = Some sp').
  { intros j sp' H. apply lookup_app_l_Some. exact H. }
  destruct (Sheet.best_space st) as [sp0|] eqn:Eb.
  - destruct (Hs sp0 eq_refl) as (Hm & Hi & Hl & Hfit & Hrot & Hmin). clear Hs Hn.
    pose proof (lookup_lt_Some _ _ _ Hl) as Hlt.
    destruct st as [b i m sr]; simpl in *; subst b m.
    destruct ((Rectangle.width r <=? sw) && (Rectangle.height r <=? sh)) eqn:E1;
    destruct (Rectangle.can_rotate r && (Rectangle.height r <=? sw)
                && (Rectangle.width r <=? sh)) eqn:E2;
    simpl; destruct (Z.ltb_spec (waste r sp) (waste r sp0)) as [E3|E3]; simpl;
    rewrite ?Z.ltb_irrefl; try (destruct (Z.ltb_spec (waste r sp) (waste r sp0)); [lia|]);
    try (destruct (Z.ltb_spec (waste r sp) (waste r sp0)); [|lia]).
    all: split; simpl; [intros; discriminate|].
    all: intros sp1 [= <-].
    all: rewrite ?Nat2Z.id.
    all: refine (conj _ (conj _ (conj _ (conj _ (conj _ _))))).
    all: try reflexivity; try lia; try assumption; try exact Hlast.
    all: try (apply Hkeep; assumption).
    all: try (apply Hf; reflexivity); try (apply Ht; reflexivity).
    all: try (intros; discriminate).
    all: try (intros _ Hx; apply Hf in Hx; discriminate).
    all: intros j sp' o Hj Hfo; destruct (Hold _ _ Hj) as [[Hjl Hj']|[-> ->]];
      [ destruct (Hmin _ _ _ Hj' Hfo); split; lia
      | try (exfalso; destruct o; [apply Ht in Hfo | apply Hf in Hfo]; discriminate);
        split; lia ].
  - destruct (Hn eq_refl) as (Hm & Hi & Hrot & Hno). clear Hs Hn.
    destruct st as [b i m sr]; simpl in *; subst b m i sr.
    destruct ((Rectangle.width r <=? sw) && (Rectangle.height r <=? sh)) eqn:E1;
    destruct (Rectangle.can_rotate r && (Rectangle.height r <=? sw)
                && (Rectangle.width r <=? sh)) eqn:E2;
    simpl; rewrite ?Z.ltb_irrefl.
    4: { split; simpl; [|intros; discriminate].
         intros _. repeat split. intros j sp' o Hj Hfo.
         destruct (Hold _ _ Hj) as [[Hjl Hj']|[-> ->]].
         - exact (Hno _ _ _ Hj' Hfo).
         - destruct o; [apply Ht in Hfo | apply Hf in Hfo]; discriminate. }
    all: split; simpl; [intros; discriminate|].
    all: intros sp1 [= <-].
    all: rewrite ?Nat2Z.id.
    all: refine (conj _ (conj _ (conj _ (conj _ (conj _ _))))).
    all: try reflexivity; try lia; try assumption; try exact Hlast.
    all: try (apply Hf; reflexivity); try (apply Ht; reflexivity).
    all: try (intros; discriminate).
    all: try (intros _ Hx; apply Hf in Hx; discriminate).
    all: intros j sp' o Hj Hfo; destruct (Hold _ _ Hj) as [[Hjl Hj']|[-> ->]];
      [ exfalso; exact (Hno _ _ _ Hj' Hfo) | split; lia ].
Qed.

Lemma scan_spaces_inv (l pre : list Space) (st : Sheet.search) :
  scan_inv r pre st ->
  scan_inv r (pre ++ l) (Sheet.scan_spaces r st (Z.of_nat (length pre)) l).
Proof.
  revert pre st. induction l as [|sp l IH]; intros pre st H; simpl.
  - rewrite app_nil_r. exact H.
  - replace (pre ++ sp :: l) with ((pre ++ [sp]) ++ l) by (rewrite <- app_assoc; reflexivity).
    replace (Z.of_nat (length pre) + 1) with (Z.of_nat (length (pre ++ [sp])))
      by (rewrite length_app; simpl; lia).
    apply IH. apply scan_space_inv. exact H.
Qed.

End BestFit.

Lemma find_best_space_scan (s : Sheet.t) (r : Rectangle.t) :
  scan_inv r (Sheet.spaces s)
           (Sheet.scan_spaces r Sheet.search_init 0 (Sheet.spaces s)).
Proof. exact (scan_spaces_inv r (Sheet.spaces s) [] _ (scan_inv_init r)). Qed.

Lemma find_best_space_None (s : Sheet.t) (r : Rectangle.t) i rot :
  Sheet.find_best_space s r = (None, i, rot) ->
  i = -1 /\ rot = false
  /\ forall (j : nat) sp o, Sheet.spaces s !! j = Some sp -> ~ fits r sp o.
Proof.
  unfold Sheet.find_best_space. intros [= Hb <- <-].
  destruct (scan_none _ _ _ (find_best_space_scan s r) Hb) as (_ & Hi & Hr & Hno).
  auto.
Qed.

Lemma find_best_space_Some (s : Sheet.t) (r : Rectangle.t) sp i rot :
  Sheet.find_best_space s r = (Some sp, i, rot) ->
  0 <= i
  /\ Sheet.spaces s !! Z.to_nat i = Some sp
  /\ fits r sp rot
  /\ (rot = true -> ~ fits r sp false)
  /\ forall (j : nat) sp' o, Sheet.spaces s !! j = Some sp' -> fits r sp' o ->
       waste r sp <= waste r sp'
       /\ ((j < Z.to_nat i)%nat -> waste r sp < waste r sp').
Proof.
  unfold Sheet.find_best_space. intros [= Hb <- <-].
  destruct (scan_some _ _ _ (find_best_space_scan s r) sp Hb) as (_ & H).
  exact H.
Qed.

Lemma find_best_space_fits (s : Sheet.t) (r : Rectangle.t) (j : nat) sp o :
  Sheet.spaces s !! j = Some sp -> fits r sp o ->
  exists sp' i rot, Sheet.find_best_space s r = (Some sp', i, rot).
Proof.
  intros Hj Hf.
  destruct (Sheet.find_best_space s r) as [[[sp'|] i] rot] eqn:E; [eauto|].
  apply find_best_space_None in E as (_ & _ & Hno). destruct (Hno _ _ _ Hj Hf).
Qed.

(** ** Lists related pairwise *)

Section Pairwise.

Context {A : Type} (R : A -> A -> Prop).

Lemma pairwise_app (l1 l2 : list A) :
  pairwise R (l1 ++ l2) <->
  pairwise R l1 /\ pairwise R l2 /\ Forall (fun a => Forall (R a) l2) l1.
Proof.
  induction l1 as [|a l1 IH]; simpl.
  - split; [intros H; repeat split; auto | intros (_ & H & _); exact H].
  - rewrite Forall_app, IH, Forall_cons. tauto.
Qed.

Lemma pairwise_delete (k : nat) (l : list A) :
  pairwise R l -> pairwise R (delete k l).
Proof.
  revert k. induction l as [|a l IH]; intros k H; [exact H|].
  destruct H as [Ha Hl]. destruct k as [|k]; simpl; [exact Hl|].
  split; [|apply IH; exact Hl].
  apply Forall_delete. exact Ha.
Qed.

Lemma pairwise_lookup (l : list A) (i j : nat) a b :
  pairwise R l -> (i < j)%nat -> l !! i = Some a -> l !! j = Some b -> R a b.
Proof.
  revert i j. induction l as [|c l IH]; intros i j H Hij Hi Hj; [destruct i; discriminate|].
  destruct H as [Hc Hl]. destruct j as [|j]; [lia|]. destruct i as [|i]; simpl in *.
  - injection Hi as ->. rewrite Forall_forall in Hc. apply Hc.
    eapply list_elem_of_lookup_2. exact Hj.
  - apply (IH i j); [exact Hl | lia | exact Hi | exact Hj].
Qed.

Hypothesis R_sym : forall a b, R a b -> R b a.

Lemma pairwise_delete_other (k : nat) (l : list A) a :
  pairwise R l -> l !! k = Some a -> Forall (R a) (delete k l).
Proof.
  revert k. induction l as [|c l IH]; intros k H Hk; [destruct k; discriminate|].
  destruct H as [Hc Hl]. destruct k as [|k]; simpl in *.
  - injection Hk as ->. exact Hc.
  - constructor; [|apply (IH k); assumption].
    apply R_sym. rewrite Forall_forall in Hc. apply Hc.
    eapply list_elem_of_lookup_2. exact Hk.
Qed.

Lemma pairwise_lookup_ne (l : list A) (i j : nat) a b :
  pairwise R l -> i <> j -> l !! i = Some a -> l !! j = Some b -> R a b.
Proof.
  intros H Hij Hi Hj. destruct (Nat.lt_ge_cases i j) as [Hlt|Hge].
  - exact (pairwise_lookup l i j a b H Hlt Hi Hj).
  - apply R_sym. apply (pairwise_lookup l j i b a H); [lia | exact Hj | exact Hi].
Qed.

End Pairwise.

(** ** Rectangles *)

Lemma disjoint_sym (a b : Space) : disjoint a b -> disjoint b a.
Proof. unfold disjoint, overlap. lia. Qed.

Lemma disjoint_within (a b c : Space) :
  within a b -> disjoint b c -> disjoint a c.
Proof. unfold within, disjoint, overlap. lia. Qed.

Lemma inside_within (W H : Z) (a b : Space) :
  within a b -> inside W H b -> inside W H a.
Proof. unfold within, inside. lia. Qed.

Lemma covers_overlap (a b : Space) pt : covers a pt -> covers b pt -> overlap a b.
Proof. unfold covers, overlap. lia. Qed.

Lemma covers_within (a b : Space) pt : within a b -> covers a pt -> covers b pt.
Proof. unfold within, covers. lia. Qed.

(** The guillotine split of a region around a footprint in its corner. *)
Section Split.

Variables (x y sw sh fw fh : Z).
Hypothesis (Hfw : 0 <= fw) (Hfh : 0 <= fh) (Hw : fw <= sw) (Hh : fh <= sh).

Lemma split_footprint_within : within (x, y, fw, fh) (x, y, sw, sh).
Proof. unfold within, sp_x, sp_y, sp_w, sp_h; simpl. lia. Qed.

Lemma split_space_within :
  Forall (fun n => within n (x, y, sw, sh)) (Sheet.split_space (x, y, sw, sh) fw fh).
Proof.
  unfold Sheet.split_space. apply Forall_app. split.
  - destruct (Z.gtb_spec sw fw); repeat constructor;
      unfold sp_x, sp_y, sp_w, sp_h; simpl; lia.
  - destruct (Z.gtb_spec sh fh); repeat constructor;
      unfold sp_x, sp_y, sp_w, sp_h; simpl; lia.
Qed.

Lemma split_space_clear :
  Forall (disjoint (x, y, fw, fh)) (Sheet.split_space (x, y, sw, sh) fw fh).
Proof.
  unfold Sheet.split_space. apply Forall_app. split.
  - destruct (Z.gtb_spec sw fw); repeat constructor.
    unfold disjoint, overlap, sp_x, sp_y, sp_w, sp_h; simpl; lia.
  - destruct (Z.gtb_spec sh fh); repeat constructor.
    unfold disjoint, overlap, sp_x, sp_y, sp_w, sp_h; simpl; lia.
Qed.

Lemma split_space_apart : pairwise disjoint (Sheet.split_space (x, y, sw, sh) fw fh).
Proof.
  unfold Sheet.split_space.
  destruct (Z.gtb_spec sw fw); destruct (Z.gtb_spec sh fh); simpl;
    repeat split; repeat constructor.
  unfold disjoint, overlap, sp_x, sp_y, sp_w, sp_h; simpl; lia.
Qed.

Lemma split_space_cover pt :
  covers (x, y, sw, sh) pt ->
  covers (x, y, fw, fh) pt
  \/ exists n, n ∈ Sheet.split_space (x, y, sw, sh) fw fh /\ covers n pt.
Proof.
  unfold Sheet.split_space, covers, sp_x, sp_y, sp_w, sp_h. simpl. intros Hc.
  destruct (Z_lt_le_dec pt.1 (x + fw)) as [Hx|Hx].
  - destruct (Z_lt_le_dec pt.2 (y + fh)) as [Hy|Hy]; [left; lia|].
    right. exists (x, y + fh, fw, sh - fh). split; [|simpl; lia].
    apply elem_of_app. right. destruct (Z.gtb_spec sh fh); [|lia].
    apply list_elem_of_singleton; reflexivity.
  - right. exists (x + fw, y, sw - fw, sh). split; [|simpl; lia].
    apply elem_of_app. left. destruct (Z.gtb_spec sw fw); [|lia].
    apply list_elem_of_singleton; reflexivity.
Qed.

End Split.

(** The split keeps the area: region = footprint + appended strips. *)
Lemma split_space_area (x y sw sh fw fh : Z) :
  fw <= sw -> fh <= sh ->
  sw * sh = fw * fh + sum_areas (Sheet.split_space (x, y, sw, sh) fw fh).
Proof.
  intros Hw Hh. unfold Sheet.split_space, sum_areas.
  destruct (Z.gtb_spec sw fw) as [H1|H1]; destruct (Z.gtb_spec sh fh) as [H2|H2];
    unfold sp_w, sp_h; simpl.
  - ring.
  - assert (sh = fh) as -> by lia. ring.
  - assert (sw = fw) as -> by lia. ring.
  - assert (sh = fh) as -> by lia. assert (sw = fw) as -> by lia. ring.
Qed.

Lemma split_space_nonneg (x y sw sh fw fh : Z) :
  0 <= fw -> 0 <= sh ->
  Forall (fun n => 0 <= sp_w n /\ 0 <= sp_h n) (Sheet.split_space (x, y, sw, sh) fw fh).
Proof.
  intros Hfw Hsh. unfold Sheet.split_space. apply Forall_app. split.
  - destruct (Z.gtb_spec sw fw); repeat constructor; unfold sp_w, sp_h; simpl; lia.
  - destruct (Z.gtb_spec sh fh); repeat constructor; unfold sp_w, sp_h; simpl; lia.
Qed.

(** ** One placement: [find_best_space] followed by [place_rectangle] *)

Lemma list_pop_valid {A : Type} (l : list A) (i : Z) :
  0 <= i -> (Z.to_nat i < length l)%nat ->
  list_pop l i = Ok (delete (Z.to_nat i) l).
Proof.
  intros H0 Hlt. unfold list_pop.
  destruct (Z.ltb_spec i 0); [lia|].
  destruct (Z.leb_spec 0 i); [|lia].
  destruct (Z.ltb_spec i (Z.of_nat (length l))); [reflexivity|lia].
Qed.

Lemma elem_of_delete_or {A : Type} (l : list A) (i : nat) (a b : A) :
  l !! i = Some a -> b ∈ l -> b = a \/ b ∈ delete i l.
Proof.
  revert i. induction l as [|c l IH]; intros i Hi Hb; [destruct i; discriminate|].
  destruct i as [|i]; simpl in *.
  - injection Hi as ->. apply elem_of_cons in Hb. exact Hb.
  - apply elem_of_cons in Hb as [->|Hb].
    + right. apply elem_of_cons. left. reflexivity.
    + destruct (IH i Hi Hb) as [->|H]; [left; reflexivity|].
      right. apply elem_of_cons. right. exact H.
Qed.

Lemma footprint_committed (r : Rectangle.t) (sp : Space) (rot : bool) :
  footprint (committed r sp rot) = Some (committed_footprint r sp rot).
Proof. destruct rot; reflexivity. Qed.

Lemma fits_dimensions (r : Rectangle.t) (sp : Space) (rot : bool) :
  fits r sp rot ->
  (Rectangle.get_dimensions (Rectangle.set_rotated rot r)).1 <= sp_w sp
  /\ (Rectangle.get_dimensions (Rectangle.set_rotated rot r)).2 <= sp_h sp.
Proof. destruct rot; unfold fits; simpl; tauto. Qed.

Lemma positive_dimensions (r : Rectangle.t) (rot : bool) :
  positive_dims r ->
  0 < (Rectangle.get_dimensions (Rectangle.set_rotated rot r)).1
  /\ 0 < (Rectangle.get_dimensions (Rectangle.set_rotated rot r)).2.
Proof. destruct rot; unfold positive_dims; simpl; tauto. Qed.

Lemma place_after_find (s : Sheet.t) (r : Rectangle.t) sp i rot :
  Sheet.find_best_space s r = (Some sp, i, rot) ->
  Sheet.place_rectangle s (Rectangle.set_rotated rot r) sp i =
  Ok (Sheet.mk (Sheet.stock_sheet s) (Sheet.width s) (Sheet.height s)
        (Sheet.thickness s)
        (Sheet.placed_rectangles s ++ [committed r sp rot])
        (delete (Z.to_nat i) (Sheet.spaces s)
         ++ Sheet.split_space sp
              (Rectangle.get_dimensions (Rectangle.set_rotated rot r)).1
              (Rectangle.get_dimensions (Rectangle.set_rotated rot r)).2)).
Proof.
  intros H. apply find_best_space_Some in H as (H0 & Hl & _).
  unfold Sheet.place_rectangle, committed.
  destruct sp as [[[x y] sw] sh].
  destruct (Rectangle.get_dimensions (Rectangle.set_rotated rot r)) as [fw fh].
  rewrite (list_pop_valid _ _ H0 (lookup_lt_Some _ _ _ Hl)). reflexivity.
Qed.

Lemma place_preserves_inv (s s' : Sheet.t) (r : Rectangle.t) sp i rot :
  sheet_inv s -> positive_dims r ->
  Sheet.find_best_space s r = (Some sp, i, rot) ->
  Sheet.place_rectangle s (Rectangle.set_rotated rot r) sp i = Ok s' ->
  sheet_inv s'.
Proof.
  intros [Hsi Hpi Hpa Hpc Hsa Hcov] Hpos Hfind Hplace.
  rewrite (place_after_find _ _ _ _ _ Hfind) in Hplace. injection Hplace as <-.
  apply find_best_space_Some in Hfind as (H0 & Hl & Hfit & _).
  apply fits_dimensions in Hfit as [Hfw Hfh].
  destruct (positive_dimensions r rot Hpos) as [Pw Ph].
  pose proof (footprint_committed r sp rot) as Hfoot.
  set (fw := (Rectangle.get_dimensions (Rectangle.set_rotated rot r)).1) in *.
  set (fh := (Rectangle.get_dimensions (Rectangle.set_rotated rot r)).2) in *.
  assert (Hin : sp ∈ Sheet.spaces s) by (eapply list_elem_of_lookup_2; exact Hl).
  assert (Hf_in : within (committed_footprint r sp rot) sp).
  { destruct sp as [[[x y] sw] sh].
    apply (split_footprint_within x y sw sh fw fh); unfold sp_w, sp_h in *; simpl in *; lia. }
  assert (Hn_in : Forall (fun n => within n sp) (Sheet.split_space sp fw fh)).
  { destruct sp as [[[x y] sw] sh].
    apply (split_space_within x y sw sh fw fh); unfold sp_w, sp_h in *; simpl in *; lia. }
  assert (Hn_clear : Forall (disjoint (committed_footprint r sp rot))
                            (Sheet.split_space sp fw fh)).
  { destruct sp as [[[x y] sw] sh].
    apply (split_space_clear x y sw sh fw fh); unfold sp_w, sp_h in *; simpl in *; lia. }
  assert (Hn_apart : pairwise disjoint (Sheet.split_space sp fw fh)).
  { destruct sp as [[[x y] sw] sh]. apply (split_space_apart x y sw sh fw fh). }
  assert (Hn_cover : forall pt, covers sp pt ->
            covers (committed_footprint r sp rot) pt
            \/ exists n, n ∈ Sheet.split_space sp fw fh /\ covers n pt).
  { destruct sp as [[[x y] sw] sh].
    apply (split_space_cover x y sw sh fw fh); unfold sp_w, sp_h in *; simpl in *; lia. }
  assert (Hsp_in : inside (Sheet.width s) (Sheet.height s) sp).
  { rewrite Forall_forall in Hsi. apply Hsi. exact Hin. }
  assert (Hothers : Forall (disjoint sp) (delete (Z.to_nat i) (Sheet.spaces s))).
  { apply (pairwise_delete_other disjoint disjoint_sym _ _ _ Hsa Hl). }
  split; simpl.
  - apply Forall_app. split; [apply Forall_delete; exact Hsi|].
    eapply Forall_impl; [exact Hn_in|]. intros n Hn. exact (inside_within _ _ _ _ Hn Hsp_in).
  - apply Forall_app. split; [exact Hpi|]. constructor; [|constructor].
    exists (committed_footprint r sp rot). split; [exact Hfoot|].
    exact (inside_within _ _ _ _ Hf_in Hsp_in).
  - apply pairwise_app. split; [exact Hpa|]. split; [simpl; auto|].
    rewrite Forall_forall in Hpc |- *. intros p Hp. constructor; [|constructor].
    intros fp fq Hfp Hfq. rewrite Hfoot in Hfq. injection Hfq as <-.
    pose proof (Hpc p Hp) as Hc. rewrite Forall_forall in Hc.
    apply disjoint_sym. apply (disjoint_within _ sp _ Hf_in).
    apply disjoint_sym. exact (Hc sp Hin fp Hfp).
  - apply Forall_app. split.
    + rewrite Forall_forall in Hpc |- *. intros p Hp. apply Forall_app. split.
      * apply Forall_delete. exact (Hpc p Hp).
      * pose proof (Hpc p Hp) as Hc. rewrite Forall_forall in Hc.
        eapply Forall_impl; [exact Hn_in|]. intros n Hn fp Hfp.
        apply disjoint_sym. apply (disjoint_within _ sp _ Hn).
        apply disjoint_sym. exact (Hc sp Hin fp Hfp).
    + constructor; [|constructor]. apply Forall_app. split.
      * eapply Forall_impl; [exact Hothers|]. intros n Hn fp Hfp.
        rewrite Hfoot in Hfp. injection Hfp as <-.
        exact (disjoint_within _ sp _ Hf_in Hn).
      * eapply Forall_impl; [exact Hn_clear|]. intros n Hn fp Hfp.
        rewrite Hfoot in Hfp. injection Hfp as <-. exact Hn.
  - apply pairwise_app. split; [apply pairwise_delete; exact Hsa|].
    split; [exact Hn_apart|].
    eapply Forall_impl; [exact Hothers|]. intros a Ha.
    eapply Forall_impl; [exact Hn_in|]. intros n Hn.
    apply disjoint_sym. exact (disjoint_within _ sp _ Hn Ha).
  - intros pt Hpt. destruct (Hcov pt Hpt) as [(sp0 & Hsp0 & Hc)|(p & f & Hp & Hf & Hc)].
    + destruct (elem_of_delete_or _ _ _ _ Hl Hsp0) as [->|Hd].
      * destruct (Hn_cover pt Hc) as [Hc'|(n & Hn & Hc')].
        -- right. exists (committed r sp rot), (committed_footprint r sp rot).
           split; [|split; [exact Hfoot|exact Hc']].
           apply elem_of_app. right. apply list_elem_of_singleton. reflexivity.
        -- left. exists n. split; [|exact Hc']. apply elem_of_app. right. exact Hn.
      * left. exists sp0. split; [|exact Hc]. apply elem_of_app. left. exact Hd.
    + right. exists p, f. split; [|split; assumption]. apply elem_of_app. left. exact Hp.
Qed.

(** ** States of a packing run *)

Lemma sheet_inv_new (stock : StockSheet.t) : sheet_inv (Sheet.new stock).
Proof.
  split; simpl; try (repeat constructor; fail).
  - constructor; [|constructor]. unfold inside, sp_x, sp_y, sp_w, sp_h; simpl. lia.
  - intros pt Hpt. left. exists (0, 0, StockSheet.width_mm stock, StockSheet.height_mm stock).
    split; [apply list_elem_of_singleton; reflexivity | exact Hpt].
Qed.

Section PackingStates.

Variable P : Rectangle.t -> Prop.
Variable stock : StockSheet.t.

Lemma packing_state_stock (s : Sheet.t) :
  packing_state P stock s ->
  Sheet.stock_sheet s = stock
  /\ Sheet.width s = StockSheet.width_mm stock
  /\ Sheet.height s = StockSheet.height_mm stock
  /\ Sheet.thickness s = StockSheet.thickness_mm stock.
Proof.
  induction 1 as [|s r sp i rot s' Hs IH Hr Hfind Hplace]; [repeat split|].
  rewrite (place_after_find _ _ _ _ _ Hfind) in Hplace. injection Hplace as <-.
  exact IH.
Qed.

Lemma packing_state_inv (s : Sheet.t) :
  (forall r, P r -> positive_dims r) ->
  packing_state P stock s -> sheet_inv s.
Proof.
  intros HP. induction 1 as [|s r sp i rot s' Hs IH Hr Hfind Hplace].
  - apply sheet_inv_new.
  - exact (place_preserves_inv _ _ _ _ _ _ IH (HP r Hr) Hfind Hplace).
Qed.

(** A placed piece has a position, and is turned only if it is not square. *)
Lemma packing_state_rotated (s : Sheet.t) :
  packing_state P stock s ->
  Forall (fun p => is_Some (Rectangle.position p)
                   /\ (Rectangle.rotated p = true
                       -> Rectangle.width p <> Rectangle.height p))
         (Sheet.placed_rectangles s).
Proof.
  induction 1 as [|s r sp i rot s' Hs IH Hr Hfind Hplace]; [constructor|].
  rewrite (place_after_find _ _ _ _ _ Hfind) in Hplace. injection Hplace as <-. simpl.
  apply Forall_app. split; [exact IH|]. constructor; [|constructor].
  split; [eexists; reflexivity|]. simpl. intros ->.
  apply find_best_space_Some in Hfind as (_ & _ & (Hcan & _) & _).
  unfold Rectangle.can_rotate in Hcan. apply negb_true_iff, Z.eqb_neq in Hcan. exact Hcan.
Qed.

(** A piece that does not fit the stock sheet fits no region of a sheet. *)
Lemma unfittable_no_space (s : Sheet.t) (r : Rectangle.t) :
  (forall r, P r -> positive_dims r) ->
  packing_state P stock s -> ~ fits_stock stock r ->
  Sheet.find_best_space s r = (None, -1, false).
Proof.
  intros HP Hs Hno.
  destruct (Sheet.find_best_space s r) as [[[sp|] i] rot] eqn:E.
  - exfalso. apply Hno.
    apply find_best_space_Some in E as (_ & Hl & Hfit & _).
    destruct (packing_state_stock s Hs) as (_ & HW & HH & _).
    pose proof (inv_spaces_inside s (packing_state_inv s HP Hs)) as Hin.
    rewrite Forall_forall in Hin.
    specialize (Hin sp (list_elem_of_lookup_2 _ _ _ Hl)).
    unfold inside in Hin. rewrite HW, HH in Hin.
    unfold fits_stock. destruct rot; unfold fits in Hfit; [right|left]; lia.
  - apply find_best_space_None in E as (-> & -> & _). reflexivity.
Qed.

(** A piece that fits the stock sheet is placed on a sheet just opened. *)
Lemma fittable_new_sheet (r : Rectangle.t) :
  fits_stock stock r ->
  exists sp i rot, Sheet.find_best_space (Sheet.new stock) r = (Some sp, i, rot).
Proof.
  intros Hfit.
  set (sp := (0, 0, StockSheet.width_mm stock, StockSheet.height_mm stock) : Space).
  assert (Hl : Sheet.spaces (Sheet.new stock) !! 0%nat = Some sp) by reflexivity.
  destruct (Z.eq_dec (Rectangle.width r) (Rectangle.height r)) as [Heq|Hne].
  - apply (find_best_space_fits _ r 0%nat sp false Hl).
    unfold fits, fits_stock, sp, sp_w, sp_h in *; simpl. lia.
  - destruct Hfit as [Hfit|Hfit].
    + apply (find_best_space_fits _ r 0%nat sp false Hl). exact Hfit.
    + apply (find_best_space_fits _ r 0%nat sp true Hl).
      unfold fits, Rectangle.can_rotate. split; [|exact Hfit].
      apply negb_true_iff, Z.eqb_neq. exact Hne.
Qed.

End PackingStates.

(** ** The loops of [optimize_cutting] *)

Section Loops.

Variable P : Rectangle.t -> Prop.
Variable stock : StockSheet.t.

Lemma place_pass_placed (s : Sheet.t) (r : Rectangle.t) rest sp i rot :
  Sheet.find_best_space s r = (Some sp, i, rot) ->
  place_pass s (r :: rest) =
  bind (Sheet.place_rectangle s (Rectangle.set_rotated rot r) sp i) (fun sheet' =>
  bind (place_pass sheet' rest) (fun '(sheet'', rest', _) =>
  Ok (sheet'', rest', true))).
Proof. intros E. cbn [place_pass]. rewrite E. reflexivity. Qed.

Lemma place_pass_kept (s : Sheet.t) (r : Rectangle.t) rest i rot :
  Sheet.find_best_space s r = (None, i, rot) ->
  place_pass s (r :: rest) =
  bind (place_pass s rest) (fun '(sheet'', rest', placed_any) =>
  Ok (sheet'', r :: rest', placed_any)).
Proof. intros E. cbn [place_pass]. rewrite E. reflexivity. Qed.

Lemma fill_sheet_S (fuel : nat) (s : Sheet.t) (pool : list Rectangle.t) :
  fill_sheet (S fuel) s pool =
  bind (place_pass s pool) (fun '(sheet', unplaced', placed_any) =>
  if placed_any : bool then fill_sheet fuel sheet' unplaced'
  else Ok (sheet', unplaced')).
Proof. reflexivity. Qed.

Lemma pack_loop_S (fuel : nat) (sheets : list Sheet.t) (r : Rectangle.t) rest :
  pack_loop (S fuel) stock sheets (r :: rest) =
  bind (fill_sheet fuel (Sheet.new stock) (r :: rest)) (fun '(sheet, unplaced') =>
  pack_loop fuel stock (sheets ++ [sheet]) unplaced').
Proof.
  simpl. unfold open_sheet, mbind, outcome_bind. simpl.
  destruct (fill_sheet fuel (Sheet.new stock) (r :: rest)) as [[s' pool']| |]; reflexivity.
Qed.

Lemma place_pass_spec (pool : list Rectangle.t) (s : Sheet.t) :
  packing_state P stock s -> Forall P pool ->
  exists s' pool' any,
    place_pass s pool = Ok (s', pool', any)
    /\ packing_state P stock s'
    /\ Forall P pool'
    /\ (length (Sheet.placed_rectangles s') + length pool'
        = length (Sheet.placed_rectangles s) + length pool)%nat
    /\ (length pool' <= length pool)%nat
    /\ (any = true -> (length pool' < length pool)%nat)
    /\ (forall r, r ∈ pool -> never_placed P stock r -> r ∈ pool')
    /\ (forall r rest sp i rot, pool = r :: rest ->
          Sheet.find_best_space s r = (Some sp, i, rot) -> any = true).
Proof.
  revert s. induction pool as [|r rest IH]; intros s Hs HP.
  - exists s, [], false. simpl. repeat split; auto; try discriminate.
  - apply Forall_cons in HP as [Hr Hrest].
    destruct (Sheet.find_best_space s r) as [[[sp|] i] rot] eqn:E.
    + pose proof (place_after_find _ _ _ _ _ E) as Hplace.
      rewrite (place_pass_placed _ _ rest _ _ _ E), Hplace.
      pose proof (packing_place P stock _ _ _ _ _ _ Hs Hr E Hplace) as Hs1.
      destruct (IH _ Hs1 Hrest) as (s' & pool' & any & Hrun & Hs' & HP' & Hlen & Hle & _ & Hkeep & _).
      exists s', pool', true. simpl. rewrite Hrun. simpl. simpl in Hlen. rewrite length_app in Hlen. simpl in Hlen.
      repeat split; auto; try lia.
      intros r0 Hr0 Hnever. apply elem_of_cons in Hr0 as [->|Hr0]; [|auto].
      rewrite (Hnever s Hs) in E. discriminate.
    + destruct (IH _ Hs Hrest) as (s' & pool' & any & Hrun & Hs' & HP' & Hlen & Hle & Hany & Hkeep & _).
      exists s', (r :: pool'), any. rewrite (place_pass_kept _ _ rest _ _ E), Hrun. simpl.
      repeat split; auto; try lia.
      * intros Ha. specialize (Hany Ha). lia.
      * intros r0 Hr0 Hnever. apply elem_of_cons in Hr0 as [->|Hr0];
          apply elem_of_cons; [left; reflexivity | right; auto].
      * intros r0 rest0 sp i0 rot0 [= <- <-] E'. rewrite E' in E. discriminate.
Qed.

Lemma fill_sheet_spec (fuel : nat) (s : Sheet.t) (pool : list Rectangle.t) :
  packing_state P stock s -> Forall P pool ->
  (fill_sheet fuel s pool = OutOfFuel /\ (fuel <= length pool)%nat)
  \/ exists s' pool',
       fill_sheet fuel s pool = Ok (s', pool')
       /\ packing_state P stock s'
       /\ Forall P pool'
       /\ (length (Sheet.placed_rectangles s') + length pool'
           = length (Sheet.placed_rectangles s) + length pool)%nat
       /\ (length pool' <= length pool)%nat
       /\ (forall r, r ∈ pool -> never_placed P stock r -> r ∈ pool')
       /\ (forall r rest sp i rot, pool = r :: rest ->
             Sheet.find_best_space s r = (Some sp, i, rot) ->
             (length pool' < length pool)%nat).
Proof.
  revert s pool. induction fuel as [|fuel IH]; intros s pool Hs HP.
  - left. split; [reflexivity|lia].
  - destruct (place_pass_spec pool s Hs HP)
      as (s1 & pool1 & any & Hrun & Hs1 & HP1 & Hlen & Hle & Hany & Hkeep & Hhead).
    rewrite fill_sheet_S, Hrun. simpl.
    destruct any.
    + specialize (Hany eq_refl).
      destruct (IH s1 pool1 Hs1 HP1)
        as [[Hout Hf]|(s' & pool' & Hrun' & Hs' & HP' & Hlen' & Hle' & Hkeep' & _)].
      * left. split; [exact Hout|lia].
      * right. exists s', pool'. repeat split; auto; try lia.
    + right. exists s1, pool1. repeat split; auto.
      intros r rest sp i rot Hpool E. specialize (Hhead _ _ _ _ _ Hpool E). discriminate.
Qed.

(** What [pack_loop] returns, when it returns. *)
Lemma pack_loop_spec (fuel : nat) (sheets : list Sheet.t) (pool : list Rectangle.t) :
  Forall P pool ->
  match pack_loop fuel stock sheets pool with
  | Ok res => exists news, res = sheets ++ news
                           /\ Forall (packing_state P stock) news
                           /\ total_placed news = length pool
  | Raise _ => False
  | OutOfFuel => True
  end.
Proof.
  revert sheets pool. induction fuel as [|fuel IH]; intros sheets pool HP.
  - destruct pool; simpl; [|exact I].
    exists []. rewrite app_nil_r. repeat split. constructor.
  - destruct pool as [|r rest].
    { exists []. rewrite app_nil_r. repeat split. constructor. }
    rewrite pack_loop_S.
    destruct (fill_sheet_spec fuel (Sheet.new stock) (r :: rest) (packing_new P stock) HP)
      as [[Hout _]|(s' & pool' & Hrun & Hs' & HP' & Hlen & _)].
    + rewrite Hout. exact I.
    + rewrite Hrun. simpl.
      specialize (IH (sheets ++ [s']) pool' HP').
      destruct (pack_loop fuel stock (sheets ++ [s']) pool') as [res| |]; auto.
      destruct IH as (news & -> & Hnews & Htot).
      exists (s' :: news). rewrite <- app_assoc. split; [reflexivity|].
      split; [constructor; assumption|].
      unfold total_placed in *. simpl in *. lia.
Qed.

(** With pieces that all fit the stock sheet the loop ends: every sheet
    opened takes at least the first piece of the pool. *)
Lemma pack_loop_terminates (fuel : nat) (sheets : list Sheet.t) (pool : list Rectangle.t) :
  (forall r, P r -> fits_stock stock r) ->
  Forall P pool ->
  (length pool + 1 < fuel)%nat ->
  exists res, pack_loop fuel stock sheets pool = Ok res.
Proof.
  intros Hfit.
  revert sheets pool. induction fuel as [|fuel IH]; intros sheets pool HP Hfuel; [lia|].
  destruct pool as [|r rest]; [simpl; eauto|].
  rewrite pack_loop_S.
  destruct (fittable_new_sheet stock r) as (sp & i & rot & E).
  { apply Forall_cons in HP as [H _]. exact (Hfit r H). }
  destruct (fill_sheet_spec fuel (Sheet.new stock) (r :: rest) (packing_new P stock) HP)
    as [[_ Hout]|(s' & pool' & Hrun & Hs' & HP' & _ & _ & Hkeep & Hhead)].
  { simpl in *. lia. }
  rewrite Hrun. simpl.
  specialize (Hhead _ _ _ _ _ eq_refl E). simpl in *.
  apply IH; [exact HP' | lia].
Qed.

(** A piece that no sheet takes stays in the pool for ever: every round opens
    one more sheet and the loop does not end. *)
Lemma pack_loop_diverges (fuel : nat) (sheets : list Sheet.t) (pool : list Rectangle.t)
    (r : Rectangle.t) :
  Forall P pool -> r ∈ pool -> never_placed P stock r ->
  pack_loop fuel stock sheets pool = OutOfFuel.
Proof.
  revert sheets pool. induction fuel as [|fuel IH]; intros sheets pool HP Hr Hnever.
  - destruct pool; [inversion Hr|reflexivity].
  - destruct pool as [|r0 rest]; [inversion Hr|].
    rewrite pack_loop_S.
    destruct (fill_sheet_spec fuel (Sheet.new stock) (r0 :: rest) (packing_new P stock) HP)
      as [[Hout _]|(s' & pool' & Hrun & Hs' & HP' & _ & _ & Hkeep & _)].
    + rewrite Hout. reflexivity.
    + rewrite Hrun. simpl. apply IH; auto.
Qed.

End Loops.

(** ** Expansion and sorting of the demand *)

Lemma insert_desc_perm (r : Rectangle.t) (l : list Rectangle.t) :
  insert_desc r l ≡ₚ r :: l.
Proof.
  induction l as [|r' l IH]; simpl; [reflexivity|].
  destruct (area r' <=? area r); [reflexivity|].
  rewrite IH. apply Permutation_swap.
Qed.

Lemma sort_desc_perm (l : list Rectangle.t) : sort_desc l ≡ₚ l.
Proof.
  induction l as [|r l IH]; simpl; [reflexivity|].
  rewrite insert_desc_perm, IH. reflexivity.
Qed.

Lemma create_rectangles_Forall (Q : Rectangle.t -> Prop) (th : Z)
    (pieces : list (Z * Z * Z)) :
  Forall (fun p => Q (Rectangle.new p.1.1 p.1.2 1 (Some th))) pieces ->
  Forall Q (create_rectangles th pieces).
Proof.
  induction 1 as [|[[w h] q] pieces Hp _ IH]; simpl; [constructor|].
  apply Forall_app. split; [|exact IH].
  apply Forall_replicate. exact Hp.
Qed.

Lemma create_rectangles_elem (th : Z) (pieces : list (Z * Z * Z)) w h q :
  (w, h, q) ∈ pieces -> 0 < q ->
  Rectangle.new w h 1 (Some th) ∈ create_rectangles th pieces.
Proof.
  intros Hin Hq. induction pieces as [|[[w' h'] q'] pieces IH]; [inversion Hin|].
  simpl. apply elem_of_app. apply elem_of_cons in Hin as [[= <- <- <-]|Hin].
  - left. destruct (Z.to_nat q) eqn:E; [lia|]. simpl. apply elem_of_cons. left. reflexivity.
  - right. exact (IH Hin).
Qed.

Lemma create_rectangles_length (th : Z) (pieces : list (Z * Z * Z)) :
  Forall (fun p => 0 <= p.2) pieces ->
  Z.of_nat (length (create_rectangles th pieces)) = total_quantity pieces.
Proof.
  induction 1 as [|[[w h] q] pieces Hp _ IH]; simpl; [reflexivity|].
  rewrite length_app, length_replicate, Nat2Z.inj_add, IH. simpl in Hp. lia.
Qed.

(** ** Areas *)

Lemma sum_areas_app (l1 l2 : list Space) :
  sum_areas (l1 ++ l2) = sum_areas l1 + sum_areas l2.
Proof. induction l1 as [|n l1 IH]; simpl; [reflexivity|]. rewrite IH. lia. Qed.

Lemma sum_areas_delete (l : list Space) (i : nat) (sp : Space) :
  l !! i = Some sp -> sum_areas (delete i l) = sum_areas l - sp_w sp * sp_h sp.
Proof.
  revert i. induction l as [|n l IH]; intros i Hi; [destruct i; discriminate|].
  destruct i as [|i]; simpl in *.
  - injection Hi as ->. lia.
  - rewrite (IH i Hi). lia.
Qed.

(** The placed pieces and the free regions always add up to the sheet. *)
Lemma packing_state_area (stock : StockSheet.t) (s : Sheet.t) :
  StockSheet.positive stock ->
  packing_state positive_dims stock s ->
  Forall (fun n => 0 <= sp_w n /\ 0 <= sp_h n) (Sheet.spaces s)
  /\ 0 <= used_area s
  /\ used_area s + sum_areas (Sheet.spaces s) = total_area s.
Proof.
  intros (_ & HW & HH).
  induction 1 as [|s r sp i rot s' Hs IH Hr Hfind Hplace].
  - unfold used_area, total_area, sum_areas, sp_w, sp_h. simpl.
    split; [|lia]. constructor; [|constructor]. simpl. lia.
  - destruct IH as (Hnn & Hused & Hsum).
    rewrite (place_after_find _ _ _ _ _ Hfind) in Hplace. injection Hplace as <-.
    apply find_best_space_Some in Hfind as (H0 & Hl & Hfit & _).
    apply fits_dimensions in Hfit as [Hfw Hfh].
    destruct (positive_dimensions r rot Hr) as [Pw Ph].
    assert (Harea : Rectangle.width r * Rectangle.height r
                    = (Rectangle.get_dimensions (Rectangle.set_rotated rot r)).1
                      * (Rectangle.get_dimensions (Rectangle.set_rotated rot r)).2).
    { destruct rot; simpl; lia. }
    set (fw := (Rectangle.get_dimensions (Rectangle.set_rotated rot r)).1) in *.
    set (fh := (Rectangle.get_dimensions (Rectangle.set_rotated rot r)).2) in *.
    pose proof (proj1 (Forall_forall _ _) Hnn sp (list_elem_of_lookup_2 _ _ _ Hl))
      as [Hsw Hsh].
    destruct sp as [[[x y] sw] sh]. unfold sp_w, sp_h in Hfw, Hfh, Hsw, Hsh.
    simpl in Hfw, Hfh, Hsw, Hsh.
    pose proof (split_space_area x y sw sh fw fh Hfw Hfh) as Hsplit.
    pose proof (split_space_nonneg x y sw sh fw fh (Z.lt_le_incl _ _ Pw) Hsh) as Hsnn.
    pose proof (sum_areas_delete _ _ _ Hl) as Hdel.
    unfold sp_w at 1, sp_h at 1 in Hdel. simpl in Hdel.
    unfold used_area, total_area in *. simpl.
    rewrite foldr_app. simpl.
    assert (Hfold : forall a l,
              foldr (fun rect acc => Rectangle.width rect * Rectangle.height rect + acc) a l
              = foldr (fun rect acc => Rectangle.width rect * Rectangle.height rect + acc) 0 l
                + a).
    { intros a l. induction l as [|c l IHl]; simpl; [lia|]. rewrite IHl. lia. }
    rewrite Hfold, sum_areas_app.
    split; [apply Forall_app; split; [apply Forall_delete; exact Hnn | exact Hsnn]|].
    rewrite Harea, Hdel. unfold Sheet.split_space in Hsplit.
    assert (0 <= fw * fh) by nia. split; lia.
Qed.

(** On a sheet of a run the used area is at least zero and at most the area
    of the sheet, which is positive: the exact quotient of the efficiency
    report is defined and lies between 0 and 1. *)
Lemma packing_state_area_bounds (stock : StockSheet.t) (s : Sheet.t) :
  StockSheet.positive stock ->
  packing_state positive_dims stock s ->
  0 < total_area s /\ 0 <= used_area s <= total_area s.
Proof.
  intros Hstock Hs.
  destruct (packing_state_area stock s Hstock Hs) as (Hnn & Hused & Hsum).
  destruct (packing_state_stock _ _ _ Hs) as (_ & HW & HH & _).
  destruct Hstock as (_ & Hw & Hh).
  assert (Hfree : 0 <= sum_areas (Sheet.spaces s)).
  { clear Hsum. induction Hnn as [|n l [Hn1 Hn2] _ IHl]; simpl; [lia|]. nia. }
  unfold total_area in *. rewrite HW, HH in *. split; [nia|lia].
Qed.

(** ** What [optimize_cutting] returns *)

Lemma optimize_cutting_spec (P : Rectangle.t -> Prop)
    (inventory : GlassInventory.t) (fuel : nat) (glass_code : string)
    (pieces : list (Z * Z * Z)) (sheets : list Sheet.t) :
  (forall th, Forall (fun pc => P (Rectangle.new pc.1.1 pc.1.2 1 (Some th))) pieces) ->
  optimize_cutting inventory fuel glass_code pieces = Ok sheets ->
  exists stock,
    GlassInventory.stock_sizes inventory !! glass_code = Some stock
    /\ Forall (packing_state P stock) sheets
    /\ total_placed sheets
       = length (create_rectangles (StockSheet.thickness_mm stock) pieces).
Proof.
  intros HP Hrun. unfold optimize_cutting, GlassInventory.get_stock_sheet in Hrun.
  destruct (GlassInventory.stock_sizes inventory !! glass_code) as [stock|] eqn:E; [|discriminate].
  exists stock. split; [reflexivity|]. simpl in Hrun.
  set (pool := sort_desc (create_rectangles (StockSheet.thickness_mm stock) pieces)) in *.
  assert (Hpool : Forall P pool).
  { unfold pool. rewrite sort_desc_perm. apply create_rectangles_Forall. apply HP. }
  pose proof (pack_loop_spec P stock fuel [] pool Hpool) as Hspec.
  rewrite Hrun in Hspec. destruct Hspec as (news & -> & Hnews & Htot).
  split; [exact Hnews|]. simpl. rewrite Htot. unfold pool.
  rewrite sort_desc_perm. reflexivity.
Qed.

Lemma positive_rectangles (pieces : list (Z * Z * Z)) :
  Forall piece_positive pieces ->
  forall th : Z,
    Forall (fun pc => positive_dims (Rectangle.new pc.1.1 pc.1.2 1 (Some th))) pieces.
Proof. intros H th. eapply Forall_impl; [exact H|]. intros pc Hpc. exact Hpc. Qed.

(** Every piece on a sheet was committed by a search on an earlier state of
    that sheet, into the region the search returned. *)
Lemma packing_state_history (P : Rectangle.t -> Prop) (stock : StockSheet.t)
    (s : Sheet.t) (p : Rectangle.t) :
  packing_state P stock s -> p ∈ Sheet.placed_rectangles s ->
  exists s0 r sp i rot,
    packing_state P stock s0 /\ P r
    /\ Sheet.find_best_space s0 r = (Some sp, i, rot)
    /\ p = committed r sp rot.
Proof.
  induction 1 as [|s r sp i rot s' Hs IH Hr Hfind Hplace]; intros Hp; [inversion Hp|].
  rewrite (place_after_find _ _ _ _ _ Hfind) in Hplace. injection Hplace as <-.
  simpl in Hp. apply elem_of_app in Hp as [Hp|Hp]; [exact (IH Hp)|].
  apply list_elem_of_singleton in Hp as ->. exists s, r, sp, i, rot. auto.
Qed.

(** ** Runs of the model on the catalog *)

Example run_example_demand :
  exists sheet,
    optimize_cutting GlassInventory.init 8 "CL6"
      [(800, 1200, 2); (500, 500, 3); (1000, 600, 1)] = Ok [sheet]
    /\ length (Sheet.placed_rectangles sheet) = 6%nat
    /\ Sheet.spaces sheet
       = [(0, 2400, 800, 200); (1800, 0, 1500, 2600);
          (1300, 600, 500, 2000); (800, 2100, 500, 500)].
Proof. eexists. split; [vm_compute; reflexivity|]. split; reflexivity. Qed.

Example run_exact_fit :
  exists sheet,
    optimize_cutting GlassInventory.init 3 "CL6" [(3300, 2600, 1)] = Ok [sheet]
    /\ Sheet.spaces sheet = [] /\ used_area sheet = total_area sheet.
Proof. eexists. split; [vm_compute; reflexivity|]. split; reflexivity. Qed.

Example run_turned_piece :
  optimize_cutting GlassInventory.init 3 "CL6" [(2600, 3300, 1)]
  = Ok [Sheet.mk CL6 3300 2600 6 [committed tall_piece (0, 0, 3300, 2600) true] []].
Proof. vm_compute. reflexivity. Qed.

Example run_empty_demand :
  optimize_cutting GlassInventory.init 0 "CL6" [] = Ok [].
Proof. vm_compute. reflexivity. Qed.

Example run_unknown_code :
  optimize_cutting GlassInventory.init 5 "XX9" [(500, 500, 1)]
  = Raise (ValueError "No stock sheet available for code XX9").
Proof. vm_compute. reflexivity. Qed.

Example run_invalid_stock :
  GlassInventory.add_stock_size GlassInventory.init "CL8" 8 0 2600
  = Raise (ValueError "All dimensions must be positive").
Proof. reflexivity. Qed.

(** * The claims *)

(** C5: the best-fit search looks at every free region in both orientations
    (the turned one only when [can_rotate] allows it), with waste the area of
    the region less the area of the piece.  It finds nothing exactly when no
    region fits the piece in any orientation; otherwise the region it returns
    is the one stored at the returned index, the piece fits it in the
    returned orientation, no fitting (region, orientation) pair has less
    waste, and every fitting region before it in the list has strictly more
    waste: among the pairs of least waste the first region met wins. *)
Theorem find_best_space_min_waste (s : Sheet.t) (r : Rectangle.t) :
  match Sheet.find_best_space s r with
  | (None, i, rot) =>
      i = -1 /\ rot = false
      /\ forall (j : nat) sp o, Sheet.spaces s !! j = Some sp -> ~ fits r sp o
  | (Some sp, i, rot) =>
      0 <= i
      /\ Sheet.spaces s !! Z.to_nat i = Some sp
      /\ fits r sp rot
      /\ forall (j : nat) sp' o, Sheet.spaces s !! j = Some sp' -> fits r sp' o ->
           sp_w sp * sp_h sp - Rectangle.width r * Rectangle.height r
           <= sp_w sp' * sp_h sp' - Rectangle.width r * Rectangle.height r
           /\ ((j < Z.to_nat i)%nat ->
               sp_w sp * sp_h sp - Rectangle.width r * Rectangle.height r
               < sp_w sp' * sp_h sp' - Rectangle.width r * Rectangle.height r)
  end.
Proof.
  destruct (Sheet.find_best_space s r) as [[[sp|] i] rot] eqn:E.
  - apply find_best_space_Some in E as (H0 & Hl & Hfit & _ & Hmin).
    repeat split; auto; apply (Hmin j sp' o); assumption.
  - exact (find_best_space_None _ _ _ _ E).
Qed.

(** C10: when the search returns the turned orientation, the piece does not
    fit the returned region as it is: the unturned fit is tried first and the
    turned one, of equal waste, must be strictly better to replace it. *)
Theorem rotation_only_when_needed (s : Sheet.t) (r : Rectangle.t) (sp : Space) (i : Z) :
  Sheet.find_best_space s r = (Some sp, i, true) ->
  ~ (Rectangle.width r <= sp_w sp /\ Rectangle.height r <= sp_h sp).
Proof.
  intros E. apply find_best_space_Some in E as (_ & _ & _ & Hrot & _).
  exact (Hrot eq_refl).
Qed.

Lemma rotation_only_when_needed_witness :
  Sheet.find_best_space (Sheet.new CL6) tall_piece = (Some (0, 0, 3300, 2600), 0, true)
  /\ ~ (Rectangle.width tall_piece <= sp_w (0, 0, 3300, 2600)
        /\ Rectangle.height tall_piece <= sp_h (0, 0, 3300, 2600)).
Proof.
  split; [reflexivity|].
  apply (rotation_only_when_needed (Sheet.new CL6) tall_piece (0, 0, 3300, 2600) 0).
  reflexivity.
Defined.

(** C6: a placement committed after a successful search removes the returned
    region from the free list (it is the one stored at the returned index) and
    appends at most two regions, in this order: when the footprint is strictly
    narrower than the region, the strip to its right, as wide as what is left
    and as high as the whole region; when the footprint is strictly lower than
    the region, the strip beyond it, as wide as the footprint only and as high
    as what is left. *)
Theorem place_rectangle_split (s : Sheet.t) (r : Rectangle.t) (sp : Space) (i : Z)
    (rot : bool) (fw fh : Z) :
  Sheet.find_best_space s r = (Some sp, i, rot) ->
  Rectangle.get_dimensions (Rectangle.set_rotated rot r) = (fw, fh) ->
  exists s',
    Sheet.place_rectangle s (Rectangle.set_rotated rot r) sp i = Ok s'
    /\ Sheet.spaces s !! Z.to_nat i = Some sp
    /\ Sheet.spaces s' =
         delete (Z.to_nat i) (Sheet.spaces s)
         ++ (if fw <? sp_w sp
             then [(sp_x sp + fw, sp_y sp, sp_w sp - fw, sp_h sp)] else [])
         ++ (if fh <? sp_h sp
             then [(sp_x sp, sp_y sp + fh, fw, sp_h sp - fh)] else [])
    /\ (length (Sheet.spaces s') <= length (Sheet.spaces s) - 1 + 2)%nat.
Proof.
  intros Hfind Hdim. eexists. split; [exact (place_after_find _ _ _ _ _ Hfind)|].
  apply find_best_space_Some in Hfind as (H0 & Hl & _).
  split; [exact Hl|]. simpl. rewrite Hdim. simpl.
  pose proof (lookup_lt_Some _ _ _ Hl) as Hlt.
  destruct sp as [[[x y] sw] sh]. unfold Sheet.split_space, sp_x, sp_y, sp_w, sp_h. simpl.
  rewrite !Z.gtb_ltb. split; [reflexivity|].
  rewrite !length_app, length_delete by (apply lookup_lt_is_Some; exact Hlt).
  destruct (fw <? sw), (fh <? sh); simpl; lia.
Qed.

Lemma place_rectangle_split_witness :
  Sheet.find_best_space (Sheet.new CL6) square_piece = (Some (0, 0, 3300, 2600), 0, false)
  /\ Rectangle.get_dimensions (Rectangle.set_rotated false square_piece) = (500, 500)
  /\ exists s',
       Sheet.place_rectangle (Sheet.new CL6) (Rectangle.set_rotated false square_piece)
         (0, 0, 3300, 2600) 0 = Ok s'
       /\ Sheet.spaces (Sheet.new CL6) !! Z.to_nat 0 = Some (0, 0, 3300, 2600)
       /\ Sheet.spaces s' = [(500, 0, 2800, 2600); (0, 500, 500, 2100)]
       /\ (length (Sheet.spaces s') <= 2)%nat.
Proof.
  split; [reflexivity|]. split; [reflexivity|].
  exact (place_rectangle_split (Sheet.new CL6) square_piece (0, 0, 3300, 2600) 0 false
           500 500 eq_refl eq_refl).
Defined.

(** C8: on the sheets [optimize_cutting] returns, a square piece is never
    turned; a piece that is turned has its width different from its height. *)
Theorem square_never_rotated (inventory : GlassInventory.t) (fuel : nat)
    (glass_code : string) (pieces : list (Z * Z * Z)) (sheets : list Sheet.t)
    (s : Sheet.t) (p : Rectangle.t) :
  optimize_cutting inventory fuel glass_code pieces = Ok sheets ->
  s ∈ sheets -> p ∈ Sheet.placed_rectangles s ->
  (Rectangle.width p = Rectangle.height p -> Rectangle.rotated p = false)
  /\ (Rectangle.rotated p = true -> Rectangle.width p <> Rectangle.height p).
Proof.
  intros Hrun Hs Hp.
  destruct (optimize_cutting_spec (fun _ => True) _ _ _ _ _
              (fun th => Forall_true _ _ (fun _ => I)) Hrun)
    as (stock & _ & Hsheets & _).
  rewrite Forall_forall in Hsheets.
  pose proof (packing_state_rotated _ _ _ (Hsheets s Hs)) as Hrot.
  rewrite Forall_forall in Hrot. destruct (Hrot p Hp) as [_ Hturn].
  split; [|exact Hturn].
  intros Heq. destruct (Rectangle.rotated p); [|reflexivity].
  destruct (Hturn eq_refl Heq).
Qed.

Lemma square_never_rotated_witness :
  optimize_cutting GlassInventory.init 3 "CL6" [(500, 500, 1)] = Ok [square_sheet]
  /\ Rectangle.rotated (committed square_piece (0, 0, 3300, 2600) false) = false.
Proof.
  split; [vm_compute; reflexivity|].
  refine (proj1 (square_never_rotated GlassInventory.init 3 "CL6" [(500, 500, 1)]
                   [square_sheet] square_sheet
                   (committed square_piece (0, 0, 3300, 2600) false) _ _ _) _).
  - vm_compute. reflexivity.
  - apply list_elem_of_singleton. reflexivity.
  - apply list_elem_of_singleton. reflexivity.
  - reflexivity.
Defined.

(** C2, counterexample on decimal lengths: of three pieces 2600 mm high and
    1200.2, 1094.4 and 1005.4 mm wide, the third is placed on the 6 mm sheet
    at x = 2294.6000000000004, the rounded sum of the first two widths, and
    its right edge lies beyond the 3300 mm of the sheet, by the program's own
    comparison and as exact numbers. *)
Lemma rounded_piece_beyond_sheet :
  forallb F64.piece_positive edge_demand = true
  /\ F64.optimize_cutting F64.GlassInventory.init 4 "CL6" edge_demand = Ok [edge_sheet]
  /\ F64.Sheet.placed_rectangles edge_sheet !! 2%nat = Some edge_piece
  /\ F64.footprint edge_piece = Some edge_footprint
  /\ F64.beyond_sheet edge_sheet edge_footprint = true
  /\ F64.exactly_beyond edge_sheet edge_footprint.
Proof.
  refine (conj _ (conj _ (conj _ (conj _ (conj _ _))))); try (vm_compute; reflexivity).
  right. right. left. vm_compute. reflexivity.
Qed.

(** C2, as amended: on integer lengths, on every sheet [optimize_cutting]
    returns for a demand of pieces with positive dimensions, every placed
    piece has a position [(x, y)] with [0 <= x], [0 <= y],
    [x + effective width <= sheet width] and
    [y + effective height <= sheet height], the effective dimensions being
    those after the rotation flag; and the piece was committed by a search on
    an earlier state of the sheet into the free region the search returned,
    inside which its footprint lies. *)
Theorem placed_within_sheet (inventory : GlassInventory.t) (fuel : nat)
    (glass_code : string) (pieces : list (Z * Z * Z)) (sheets : list Sheet.t)
    (s : Sheet.t) (p : Rectangle.t) :
  Forall piece_positive pieces ->
  optimize_cutting inventory fuel glass_code pieces = Ok sheets ->
  s ∈ sheets -> p ∈ Sheet.placed_rectangles s ->
  exists x y,
    Rectangle.position p = Some (x, y)
    /\ 0 <= x /\ 0 <= y
    /\ x + (Rectangle.get_dimensions p).1 <= Sheet.width s
    /\ y + (Rectangle.get_dimensions p).2 <= Sheet.height s
    /\ exists s0 r sp i rot,
         packing_state positive_dims (Sheet.stock_sheet s) s0
         /\ Sheet.find_best_space s0 r = (Some sp, i, rot)
         /\ sp ∈ Sheet.spaces s0
         /\ p = Rectangle.set_position (sp_x sp, sp_y sp) (Rectangle.set_rotated rot r)
         /\ within (x, y, (Rectangle.get_dimensions p).1, (Rectangle.get_dimensions p).2) sp.
Proof.
  intros Hpos Hrun Hs Hp.
  destruct (optimize_cutting_spec positive_dims _ _ _ _ _ (positive_rectangles _ Hpos) Hrun)
    as (stock & _ & Hsheets & _).
  rewrite Forall_forall in Hsheets. specialize (Hsheets s Hs).
  destruct (packing_state_stock _ _ _ Hsheets) as (-> & _).
  pose proof (inv_placed_inside s (packing_state_inv _ _ s (fun r H => H) Hsheets)) as Hin.
  rewrite Forall_forall in Hin. destruct (Hin p Hp) as (f & Hf & Hfin).
  destruct (packing_state_history _ _ _ _ Hsheets Hp)
    as (s0 & r & sp & i & rot & Hs0 & Hr & Hfind & ->).
  rewrite footprint_committed in Hf. injection Hf as <-.
  exists (sp_x sp), (sp_y sp). split; [reflexivity|].
  unfold inside, committed_footprint, sp_x, sp_y, sp_w, sp_h in Hfin. simpl in Hfin.
  assert (Hdim : Rectangle.get_dimensions (committed r sp rot)
                 = Rectangle.get_dimensions (Rectangle.set_rotated rot r)) by reflexivity.
  rewrite Hdim.
  refine (conj _ (conj _ (conj _ (conj _ _)))); try (unfold sp_x, sp_y; simpl; lia).
  exists s0, r, sp, i, rot. pose proof Hfind as Hfind'.
  apply find_best_space_Some in Hfind' as (_ & Hl & Hfit & _).
  apply fits_dimensions in Hfit.
  refine (conj Hs0 (conj Hfind (conj _ (conj eq_refl _)))).
  - eapply list_elem_of_lookup_2. exact Hl.
  - unfold within, sp_x, sp_y, sp_w, sp_h in *; simpl; lia.
Qed.

Lemma placed_within_sheet_witness :
  Forall piece_positive [(500, 500, 1)]
  /\ optimize_cutting GlassInventory.init 3 "CL6" [(500, 500, 1)] = Ok [square_sheet]
  /\ exists x y,
       Rectangle.position (committed square_piece (0, 0, 3300, 2600) false) = Some (x, y)
       /\ 0 <= x /\ 0 <= y /\ x + 500 <= 3300 /\ y + 500 <= 2600.
Proof.
  assert (Hpos : Forall piece_positive [(500, 500, 1)]).
  { constructor; [|constructor]. unfold piece_positive. simpl. lia. }
  split; [exact Hpos|]. split; [vm_compute; reflexivity|].
  destruct (placed_within_sheet GlassInventory.init 3 "CL6" [(500, 500, 1)]
              [square_sheet] square_sheet
              (committed square_piece (0, 0, 3300, 2600) false) Hpos)
    as (x & y & Hxy & Hx & Hy & Hw & Hh & _).
  - vm_compute. reflexivity.
  - apply list_elem_of_singleton. reflexivity.
  - apply list_elem_of_singleton. reflexivity.
  - exists x, y. auto.
Defined.

(** C3, counterexample on decimal lengths: on the sheet returned for four
    pieces, the piece at (284.2, 1594.9), 610.7 mm wide, and the piece at
    (894.9, 0), 1989.3 mm high, intersect: the region the first was placed in
    was 894.9 - 284.2 wide, which rounds to 610.7, while 284.2 + 610.7 is
    more than 894.9. *)
Lemma rounded_pieces_overlap :
  forallb F64.piece_positive crossing_demand = true
  /\ F64.optimize_cutting F64.GlassInventory.init 6 "CL6" crossing_demand
     = Ok [crossing_sheet]
  /\ F64.Sheet.placed_rectangles crossing_sheet !! 2%nat = Some lying_piece
  /\ F64.Sheet.placed_rectangles crossing_sheet !! 3%nat = Some strip_piece
  /\ F64.footprint lying_piece = Some lying_footprint
  /\ F64.footprint strip_piece = Some strip_footprint
  /\ F64.overlap lying_footprint strip_footprint = true
  /\ F64.exactly_overlap lying_footprint strip_footprint.
Proof.
  refine (conj _ (conj _ (conj _ (conj _ (conj _ (conj _ (conj _ _)))))));
    try (vm_compute; reflexivity).
  vm_compute. refine (conj _ (conj _ (conj _ _))); reflexivity.
Qed.

(** C3, as amended: on integer lengths, on every sheet [optimize_cutting]
    returns for a demand of pieces with positive dimensions, two different
    placed pieces have footprints (position and dimensions after the rotation
    flag) that do not intersect: they share no square millimetre. *)
Theorem placed_pieces_disjoint (inventory : GlassInventory.t) (fuel : nat)
    (glass_code : string) (pieces : list (Z * Z * Z)) (sheets : list Sheet.t)
    (s : Sheet.t) (i j : nat) (p q : Rectangle.t) :
  Forall piece_positive pieces ->
  optimize_cutting inventory fuel glass_code pieces = Ok sheets ->
  s ∈ sheets -> i <> j ->
  Sheet.placed_rectangles s !! i = Some p ->
  Sheet.placed_rectangles s !! j = Some q ->
  exists fp fq,
    footprint p = Some fp /\ footprint q = Some fq
    /\ ~ overlap fp fq
    /\ forall pt, ~ (covers fp pt /\ covers fq pt).
Proof.
  intros Hpos Hrun Hs Hij Hi Hj.
  destruct (optimize_cutting_spec positive_dims _ _ _ _ _ (positive_rectangles _ Hpos) Hrun)
    as (stock & _ & Hsheets & _).
  rewrite Forall_forall in Hsheets. specialize (Hsheets s Hs).
  pose proof (packing_state_inv _ _ s (fun r H => H) Hsheets) as [_ Hin Hpa _ _ _].
  rewrite Forall_forall in Hin.
  destruct (Hin p (list_elem_of_lookup_2 _ _ _ Hi)) as (fp & Hfp & _).
  destruct (Hin q (list_elem_of_lookup_2 _ _ _ Hj)) as (fq & Hfq & _).
  exists fp, fq. split; [exact Hfp|]. split; [exact Hfq|].
  assert (Hsym : forall a b, placed_apart a b -> placed_apart b a).
  { intros a b Hab fa fb Ha Hb. apply disjoint_sym. exact (Hab fb fa Hb Ha). }
  pose proof (pairwise_lookup_ne placed_apart Hsym _ i j p q Hpa Hij Hi Hj fp fq Hfp Hfq)
    as Hd.
  split; [exact Hd|]. intros pt [Hc1 Hc2]. exact (Hd (covers_overlap _ _ _ Hc1 Hc2)).
Qed.

Lemma placed_pieces_disjoint_witness :
  Forall piece_positive [(500, 500, 2)]
  /\ optimize_cutting GlassInventory.init 3 "CL6" [(500, 500, 2)] = Ok [pair_sheet]
  /\ exists fp fq,
       footprint (committed square_piece (0, 0, 3300, 2600) false) = Some fp
       /\ footprint (committed square_piece (0, 500, 500, 2100) false) = Some fq
       /\ ~ overlap fp fq
       /\ forall pt, ~ (covers fp pt /\ covers fq pt).
Proof.
  assert (Hpos : Forall piece_positive [(500, 500, 2)]).
  { constructor; [|constructor]. unfold piece_positive. simpl. lia. }
  split; [exact Hpos|]. split; [vm_compute; reflexivity|].
  apply (placed_pieces_disjoint GlassInventory.init 3 "CL6" [(500, 500, 2)]
           [pair_sheet] pair_sheet 0%nat 1%nat _ _ Hpos).
  - vm_compute. reflexivity.
  - apply list_elem_of_singleton. reflexivity.
  - lia.
  - reflexivity.
  - reflexivity.
Defined.

(** C9, counterexample on decimal lengths: on the sheet returned for the
    same four pieces, the state the packing ends in, two of the free regions
    intersect, and one of them intersects a placed piece. *)
Lemma rounded_free_regions_overlap :
  F64.optimize_cutting F64.GlassInventory.init 6 "CL6" crossing_demand
  = Ok [crossing_sheet]
  /\ F64.Sheet.spaces crossing_sheet !! 1%nat = Some lower_region
  /\ F64.Sheet.spaces crossing_sheet !! 3%nat = Some corner_region
  /\ F64.overlap lower_region corner_region = true
  /\ F64.exactly_overlap lower_region corner_region
  /\ strip_piece ∈ F64.Sheet.placed_rectangles crossing_sheet
  /\ F64.overlap lower_region strip_footprint = true
  /\ F64.exactly_overlap lower_region strip_footprint.
Proof.
  refine (conj _ (conj _ (conj _ (conj _ (conj _ (conj _ (conj _ _)))))));
    try (vm_compute; reflexivity).
  - vm_compute. refine (conj _ (conj _ (conj _ _))); reflexivity.
  - unfold crossing_sheet. simpl. set_solver.
  - vm_compute. refine (conj _ (conj _ (conj _ _))); reflexivity.
Qed.

(** C9, as amended: on integer lengths, in every state of a sheet that is
    being packed with pieces of positive dimensions, the free regions are
    pairwise disjoint, and a square millimetre belongs to a free region
    exactly when it lies on the sheet and under no placed piece: the free
    list is a partition of the uncovered part of the sheet, with no stale or
    overlapping region. *)
Theorem free_regions_partition (stock : StockSheet.t) (s : Sheet.t) :
  packing_state positive_dims stock s ->
  (forall (i j : nat) a b, i <> j ->
     Sheet.spaces s !! i = Some a -> Sheet.spaces s !! j = Some b -> ~ overlap a b)
  /\ forall pt, covered_by_space s pt <-> on_sheet s pt /\ ~ covered_by_piece s pt.
Proof.
  intros Hs.
  destruct (packing_state_inv _ _ s (fun r H => H) Hs) as [Hsi _ _ Hpc Hsa Hcov].
  split.
  - intros i j a b Hij Hi Hj.
    exact (pairwise_lookup_ne disjoint disjoint_sym _ i j a b Hsa Hij Hi Hj).
  - intros pt. split.
    + intros (sp & Hsp & Hc). split.
      * rewrite Forall_forall in Hsi. specialize (Hsi sp Hsp).
        revert Hsi Hc. unfold on_sheet, inside, covers, sp_x, sp_y, sp_w, sp_h. simpl. lia.
      * intros (p & f & Hp & Hf & Hc').
        rewrite Forall_forall in Hpc. specialize (Hpc p Hp).
        rewrite Forall_forall in Hpc.
        exact (Hpc sp Hsp f Hf (covers_overlap _ _ _ Hc' Hc)).
    + intros [Hon Hfree]. destruct (Hcov pt Hon) as [H|H]; [exact H|]. destruct (Hfree H).
Qed.

Lemma free_regions_partition_witness :
  packing_state positive_dims CL6 square_sheet
  /\ (forall (i j : nat) a b, i <> j ->
        Sheet.spaces square_sheet !! i = Some a ->
        Sheet.spaces square_sheet !! j = Some b -> ~ overlap a b)
  /\ forall pt, covered_by_space square_sheet pt
                <-> on_sheet square_sheet pt /\ ~ covered_by_piece square_sheet pt.
Proof.
  assert (Hs : packing_state positive_dims CL6 square_sheet).
  { apply (packing_place positive_dims CL6 (Sheet.new CL6) square_piece
             (0, 0, 3300, 2600) 0 false).
    - apply packing_new.
    - unfold positive_dims. simpl. lia.
    - reflexivity.
    - reflexivity. }
  split; [exact Hs|]. exact (free_regions_partition CL6 square_sheet Hs).
Defined.

(** C4: when every line of the demand fits the stock sheet in at least one
    orientation (and no quantity is negative), [optimize_cutting] returns as
    soon as its fuel exceeds the number of requested pieces by two, and the
    sheets it returns hold as many placed pieces as were requested. *)
Theorem all_pieces_placed (inventory : GlassInventory.t) (glass_code : string)
    (stock : StockSheet.t) (pieces : list (Z * Z * Z)) (fuel : nat) :
  GlassInventory.stock_sizes inventory !! glass_code = Some stock ->
  Forall (piece_fits stock) pieces ->
  Forall (fun pc => 0 <= pc.2) pieces ->
  (Z.to_nat (total_quantity pieces) + 1 < fuel)%nat ->
  exists sheets,
    optimize_cutting inventory fuel glass_code pieces = Ok sheets
    /\ Z.of_nat (total_placed sheets) = total_quantity pieces.
Proof.
  intros Hstock Hfit Hq Hfuel.
  unfold optimize_cutting, GlassInventory.get_stock_sheet. rewrite Hstock. simpl.
  set (pool := sort_desc (create_rectangles (StockSheet.thickness_mm stock) pieces)).
  assert (Hlen : Z.of_nat (length pool) = total_quantity pieces).
  { unfold pool. rewrite sort_desc_perm. apply create_rectangles_length. exact Hq. }
  assert (Hpool : Forall (fits_stock stock) pool).
  { unfold pool. rewrite sort_desc_perm. apply create_rectangles_Forall.
    eapply Forall_impl; [exact Hfit|]. intros pc Hpc. exact Hpc. }
  destruct (pack_loop_terminates (fits_stock stock) stock fuel [] pool (fun r H => H) Hpool)
    as (res & Hres); [lia|].
  exists res. split; [exact Hres|].
  pose proof (pack_loop_spec (fits_stock stock) stock fuel [] pool Hpool) as Hspec.
  rewrite Hres in Hspec. destruct Hspec as (news & -> & _ & Htot).
  simpl. rewrite Htot. exact Hlen.
Qed.

Lemma all_pieces_placed_witness :
  GlassInventory.stock_sizes GlassInventory.init !! "CL6" = Some CL6
  /\ Forall (piece_fits CL6) [(500, 500, 2)]
  /\ Forall (fun pc : Z * Z * Z => 0 <= pc.2) [(500, 500, 2)]
  /\ (Z.to_nat (total_quantity [(500, 500, 2)]%Z) + 1 < 4)%nat
  /\ exists sheets,
       optimize_cutting GlassInventory.init 4 "CL6" [(500, 500, 2)] = Ok sheets
       /\ Z.of_nat (total_placed sheets) = total_quantity [(500, 500, 2)].
Proof.
  assert (H1 : GlassInventory.stock_sizes GlassInventory.init !! "CL6" = Some CL6) by (vm_compute; reflexivity).
  assert (H2 : Forall (piece_fits CL6) [(500, 500, 2)]).
  { constructor; [|constructor]. left. simpl. lia. }
  assert (H3 : Forall (fun pc : Z * Z * Z => 0 <= pc.2) [(500, 500, 2)]).
  { constructor; [|constructor]. simpl. lia. }
  assert (H4 : (Z.to_nat (total_quantity [(500, 500, 2)]%Z) + 1 < 4)%nat) by (simpl; lia).
  refine (conj H1 (conj H2 (conj H3 (conj H4 _)))).
  exact (all_pieces_placed GlassInventory.init "CL6" CL6 [(500, 500, 2)] 4 H1 H2 H3 H4).
Defined.

(** C1, counterexample: with the catalog's 6 mm sheet of 3300 by 2600 and a
    demand of one piece of 4000 by 100, no exception is raised: the first
    round of the outer loop opens a sheet, places nothing on it and leaves the
    piece in the pool, and the call is still running when its fuel is spent. *)
Lemma unfittable_piece_opens_sheet :
  ~ piece_fits CL6 (4000, 100, 1)
  /\ open_sheet 3 CL6 ([], [long_piece]) = Ok ([Sheet.new CL6], [long_piece])
  /\ optimize_cutting GlassInventory.init 4 "CL6" [(4000, 100, 1)] = OutOfFuel.
Proof.
  split; [|split; vm_compute; reflexivity].
  unfold piece_fits. simpl. lia.
Qed.

(** C1, as amended: [optimize_cutting] validates nothing up front.  For a
    known material code and a demand of pieces with positive dimensions, one
    of which is requested at least once and fits the stock sheet in neither
    orientation, no sheet of the run ever takes that piece, and the call
    neither raises nor returns, whatever fuel it is given. *)
Theorem unfittable_piece_never_returns (inventory : GlassInventory.t)
    (glass_code : string) (stock : StockSheet.t) (pieces : list (Z * Z * Z))
    (w h q : Z) (fuel : nat) :
  GlassInventory.stock_sizes inventory !! glass_code = Some stock ->
  Forall piece_positive pieces ->
  (w, h, q) ∈ pieces -> 0 < q ->
  ~ piece_fits stock (w, h, q) ->
  never_placed positive_dims stock
    (Rectangle.new w h 1 (Some (StockSheet.thickness_mm stock)))
  /\ optimize_cutting inventory fuel glass_code pieces = OutOfFuel.
Proof.
  intros Hstock Hpos Hin Hq Hno.
  assert (Hnever : never_placed positive_dims stock
            (Rectangle.new w h 1 (Some (StockSheet.thickness_mm stock)))).
  { intros s Hs. apply (unfittable_no_space positive_dims stock s _ (fun r H => H) Hs).
    exact Hno. }
  split; [exact Hnever|].
  unfold optimize_cutting, GlassInventory.get_stock_sheet. rewrite Hstock. simpl.
  apply (pack_loop_diverges positive_dims stock fuel [] _
           (Rectangle.new w h 1 (Some (StockSheet.thickness_mm stock)))).
  - rewrite sort_desc_perm. apply create_rectangles_Forall.
    apply positive_rectangles. exact Hpos.
  - rewrite sort_desc_perm. apply create_rectangles_elem with (q := q); assumption.
  - exact Hnever.
Qed.

Lemma unfittable_piece_never_returns_witness :
  GlassInventory.stock_sizes GlassInventory.init !! "CL6" = Some CL6
  /\ Forall piece_positive [(800, 1200, 2); (4000, 100, 1)]
  /\ ~ piece_fits CL6 (4000, 100, 1)
  /\ never_placed positive_dims CL6 long_piece
  /\ optimize_cutting GlassInventory.init 50 "CL6" [(800, 1200, 2); (4000, 100, 1)]
     = OutOfFuel.
Proof.
  assert (H1 : GlassInventory.stock_sizes GlassInventory.init !! "CL6" = Some CL6) by (vm_compute; reflexivity).
  assert (H2 : Forall piece_positive [(800, 1200, 2); (4000, 100, 1)]).
  { repeat constructor; simpl; lia. }
  assert (H3 : ~ piece_fits CL6 (4000, 100, 1)) by (unfold piece_fits; simpl; lia).
  refine (conj H1 (conj H2 (conj H3 _))).
  apply (unfittable_piece_never_returns GlassInventory.init "CL6" CL6
           [(800, 1200, 2); (4000, 100, 1)] 4000 100 1 50 H1 H2).
  - apply elem_of_cons. right. apply elem_of_cons. left. reflexivity.
  - lia.
  - exact H3.
Defined.

(** * Further properties of the code *)

(** ** The catalog *)

Lemma StockSheet_new_Ok (t w h : Z) (s : StockSheet.t) :
  StockSheet.new t w h = Ok s <-> (0 < t /\ 0 < w /\ 0 < h) /\ s = StockSheet.mk t w h.
Proof.
  unfold StockSheet.new. simpl.
  destruct (Z.leb_spec t 0) as [Ht|Ht], (Z.leb_spec w 0) as [Hw|Hw],
    (Z.leb_spec h 0) as [Hh|Hh]; simpl;
    split; try discriminate; try (intros [? _]; lia).
  - intros [= <-]. split; [lia|reflexivity].
  - intros [_ ->]. reflexivity.
Qed.

(** Constructing a stock sheet succeeds exactly when thickness, width
    and height are all positive; any other triple raises the [ValueError] of
    [__post_init__]. *)
Lemma stock_sheet_validation (t w h : Z) :
  (0 < t /\ 0 < w /\ 0 < h -> StockSheet.new t w h = Ok (StockSheet.mk t w h))
  /\ (~ (0 < t /\ 0 < w /\ 0 < h) ->
      StockSheet.new t w h = Raise (ValueError "All dimensions must be positive")).
Proof.
  unfold StockSheet.new. simpl.
  destruct (Z.leb_spec t 0) as [Ht|Ht], (Z.leb_spec w 0) as [Hw|Hw],
    (Z.leb_spec h 0) as [Hh|Hh]; simpl;
    split; intros Hdim; try reflexivity; lia.
Qed.

(** X1: a sheet registered with [add_stock_size] is the one
    [get_stock_sheet] returns for its code afterwards, replacing a sheet the
    code had before, and every other code keeps its answer. *)
Theorem add_then_get (inv inv' : GlassInventory.t) (code code' : string) (t w h : Z) :
  GlassInventory.add_stock_size inv code t w h = Ok inv' ->
  GlassInventory.get_stock_sheet inv' code = Ok (StockSheet.mk t w h)
  /\ (code' <> code ->
      GlassInventory.stock_sizes inv' !! code' = GlassInventory.stock_sizes inv !! code').
Proof.
  unfold GlassInventory.add_stock_size, GlassInventory.get_stock_sheet.
  destruct (StockSheet.new t w h) as [s| |] eqn:E; try discriminate.
  apply StockSheet_new_Ok in E as [_ ->]. intros [= <-]. simpl. split.
  - rewrite lookup_insert_eq. reflexivity.
  - intros Hne. rewrite lookup_insert_ne by congruence. reflexivity.
Qed.

Lemma add_then_get_witness :
  GlassInventory.add_stock_size GlassInventory.init "CL6" 6 3210 2250
  = Ok (GlassInventory.mk
          (<["CL6" := StockSheet.mk 6 3210 2250]>
             (GlassInventory.stock_sizes GlassInventory.init)))
  /\ GlassInventory.get_stock_sheet
       (GlassInventory.mk
          (<["CL6" := StockSheet.mk 6 3210 2250]>
             (GlassInventory.stock_sizes GlassInventory.init))) "CL6"
     = Ok (StockSheet.mk 6 3210 2250).
Proof.
  split; [reflexivity|].
  exact (proj1 (add_then_get GlassInventory.init _ "CL6" "CL4" 6 3210 2250 eq_refl)).
Defined.

Lemma built_positive (inv : GlassInventory.t) (code : string) (stock : StockSheet.t) :
  built inv ->
  GlassInventory.stock_sizes inv !! code = Some stock ->
  StockSheet.positive stock.
Proof.
  intros Hb. revert code stock.
  induction Hb as [|inv c t w h inv' Hb IH Hadd]; intros code stock.
  - unfold GlassInventory.init. simpl.
    rewrite !lookup_insert. repeat case_decide; rewrite ?lookup_empty;
      intros [= <-]; unfold StockSheet.positive; simpl; lia.
  - unfold GlassInventory.add_stock_size in Hadd.
    destruct (StockSheet.new t w h) as [s| |] eqn:E; try discriminate.
    apply StockSheet_new_Ok in E as [Hpos ->]. injection Hadd as <-. simpl.
    destruct (decide (c = code)) as [->|Hne].
    + rewrite lookup_insert_eq. intros [= <-]. exact Hpos.
    + rewrite lookup_insert_ne by exact Hne. apply IH.
Qed.

(** ** The run as a whole *)

(** The search reads the width and the height of the piece and nothing else. *)
Lemma scan_space_requested (r : Rectangle.t) st i sp :
  Sheet.scan_space (requested r) st i sp = Sheet.scan_space r st i sp.
Proof. destruct sp as [[[x y] sw] sh]. reflexivity. Qed.

Lemma find_best_space_requested (s : Sheet.t) (r : Rectangle.t) :
  Sheet.find_best_space s (requested r) = Sheet.find_best_space s r.
Proof.
  unfold Sheet.find_best_space.
  assert (H : forall l st i,
             Sheet.scan_spaces (requested r) st i l = Sheet.scan_spaces r st i l).
  { induction l as [|sp l IH]; intros st i; simpl; [reflexivity|].
    rewrite scan_space_requested. apply IH. }
  rewrite H. reflexivity.
Qed.

Lemma requested_committed (r : Rectangle.t) sp rot :
  requested (committed r sp rot) = requested r.
Proof. reflexivity. Qed.

(** A pass that reports [placed_any = False] changed nothing and found no
    region for any piece of the pool. *)
Lemma place_pass_nothing (pool : list Rectangle.t) (s s' : Sheet.t) pool' :
  place_pass s pool = Ok (s', pool', false) ->
  s' = s /\ pool' = pool
  /\ forall r, r ∈ pool -> Sheet.find_best_space s r = (None, -1, false).
Proof.
  revert s' pool'. induction pool as [|r rest IH]; intros s' pool' Hrun.
  - injection Hrun as <- <-. repeat split. intros r Hr. inversion Hr.
  - destruct (Sheet.find_best_space s r) as [[[sp|] i] rot] eqn:E.
    + rewrite (place_pass_placed _ _ rest _ _ _ E) in Hrun.
      destruct (Sheet.place_rectangle s (Rectangle.set_rotated rot r) sp i)
        as [s1| |]; simpl in Hrun; try discriminate.
      destruct (place_pass s1 rest) as [[[s2 rest2] any]| |]; simpl in Hrun; discriminate.
    + rewrite (place_pass_kept _ _ rest _ _ E) in Hrun.
      destruct (place_pass s rest) as [[[s2 rest2] any]| |] eqn:E2;
        simpl in Hrun; try discriminate.
      injection Hrun as <- <- ->.
      destruct (IH _ _ eq_refl) as (-> & -> & Hnone).
      repeat split. intros r0 Hr0. apply elem_of_cons in Hr0 as [->|Hr0]; [|auto].
      pose proof E as E'. apply find_best_space_None in E' as (-> & -> & _). exact E.
Qed.

(** Pieces move from the pool to the sheet and are otherwise unchanged. *)
Lemma place_pass_perm (pool : list Rectangle.t) (s s' : Sheet.t) pool' any :
  place_pass s pool = Ok (s', pool', any) ->
  map requested (Sheet.placed_rectangles s') ++ map requested pool'
  ≡ₚ map requested (Sheet.placed_rectangles s) ++ map requested pool.
Proof.
  revert s s' pool' any. induction pool as [|r rest IH]; intros s s' pool' any Hrun.
  - injection Hrun as <- <- <-. reflexivity.
  - destruct (Sheet.find_best_space s r) as [[[sp|] i] rot] eqn:E.
    + rewrite (place_pass_placed _ _ rest _ _ _ E),
        (place_after_find _ _ _ _ _ E) in Hrun. simpl in Hrun.
      match type of Hrun with
      | context [place_pass ?s1 rest] =>
          destruct (place_pass s1 rest) as [[[s2 rest2] any2]| |] eqn:E2;
          simpl in Hrun; try discriminate
      end.
      injection Hrun as <- <- <-.
      rewrite (IH _ _ _ _ E2). simpl. rewrite map_app. simpl.
      rewrite requested_committed, <- app_assoc. simpl. reflexivity.
    + rewrite (place_pass_kept _ _ rest _ _ E) in Hrun.
      destruct (place_pass s rest) as [[[s2 rest2] any2]| |] eqn:E2;
        simpl in Hrun; try discriminate.
      injection Hrun as <- <- <-. simpl.
      rewrite <- !Permutation_middle. constructor. exact (IH _ _ _ _ E2).
Qed.

(** A pass never raises: the index a successful search returns is in range. *)
Lemma place_pass_runs (pool : list Rectangle.t) (s : Sheet.t) :
  exists s' pool' any, place_pass s pool = Ok (s', pool', any).
Proof.
  revert s. induction pool as [|r rest IH]; intros s; [simpl; eauto|].
  destruct (Sheet.find_best_space s r) as [[[sp|] i] rot] eqn:E.
  - rewrite (place_pass_placed _ _ rest _ _ _ E), (place_after_find _ _ _ _ _ E). simpl.
    match goal with
    | |- context [place_pass ?s1 rest] => destruct (IH s1) as (s2 & rest2 & any2 & ->)
    end.
    simpl. eauto.
  - rewrite (place_pass_kept _ _ rest _ _ E).
    destruct (IH s) as (s2 & rest2 & any2 & ->). simpl. eauto.
Qed.

(** What [fill_sheet] hands back: the pieces of the pool it took, and a
    pool of which the closed sheet takes no piece. *)
Lemma fill_sheet_result (fuel : nat) (s s' : Sheet.t) (pool pool' : list Rectangle.t) :
  fill_sheet fuel s pool = Ok (s', pool') ->
  map requested (Sheet.placed_rectangles s') ++ map requested pool'
  ≡ₚ map requested (Sheet.placed_rectangles s) ++ map requested pool
  /\ place_pass s' pool' = Ok (s', pool', false).
Proof.
  revert s pool. induction fuel as [|fuel IH]; intros s pool Hrun; [discriminate|].
  rewrite fill_sheet_S in Hrun.
  destruct (place_pass s pool) as [[[s1 pool1] any]| |] eqn:E; simpl in Hrun;
    try discriminate.
  pose proof (place_pass_perm _ _ _ _ _ E) as Hperm.
  destruct any.
  - destruct (IH _ _ Hrun) as [Hperm' Hlast]. split; [|exact Hlast].
    rewrite Hperm'. exact Hperm.
  - injection Hrun as <- <-. split; [exact Hperm|].
    destruct (place_pass_nothing _ _ _ _ E) as (-> & -> & _). exact E.
Qed.

(** A pool of which a sheet just opened takes nothing is never emptied. *)
Lemma pack_loop_stuck (fuel : nat) (stock : StockSheet.t) (sheets : list Sheet.t)
    (pool : list Rectangle.t) :
  pool <> [] ->
  place_pass (Sheet.new stock) pool = Ok (Sheet.new stock, pool, false) ->
  pack_loop fuel stock sheets pool = OutOfFuel.
Proof.
  intros Hne Hpass. revert sheets. induction fuel as [|fuel IH]; intros sheets.
  - destruct pool; [contradiction|reflexivity].
  - destruct pool as [|r rest]; [contradiction|]. rewrite pack_loop_S.
    destruct fuel as [|fuel']; [reflexivity|].
    rewrite fill_sheet_S, Hpass. simpl. apply IH.
Qed.

Lemma place_pass_grows (pool : list Rectangle.t) (s s' : Sheet.t) pool' any :
  place_pass s pool = Ok (s', pool', any) ->
  (length (Sheet.placed_rectangles s) <= length (Sheet.placed_rectangles s'))%nat
  /\ (any = true ->
      (length (Sheet.placed_rectangles s) < length (Sheet.placed_rectangles s'))%nat).
Proof.
  revert s s' pool' any. induction pool as [|r rest IH]; intros s s' pool' any Hrun.
  - injection Hrun as <- <- <-. split; [lia|discriminate].
  - destruct (Sheet.find_best_space s r) as [[[sp|] i] rot] eqn:E.
    + rewrite (place_pass_placed _ _ rest _ _ _ E),
        (place_after_find _ _ _ _ _ E) in Hrun. simpl in Hrun.
      match type of Hrun with
      | context [place_pass ?s1 rest] =>
          destruct (place_pass s1 rest) as [[[s2 rest2] any2]| |] eqn:E2;
          simpl in Hrun; try discriminate
      end.
      injection Hrun as <- <- <-.
      destruct (IH _ _ _ _ E2) as [Hle _]. simpl in Hle.
      rewrite length_app in Hle. simpl in Hle. split; [|intros _]; lia.
    + rewrite (place_pass_kept _ _ rest _ _ E) in Hrun.
      destruct (place_pass s rest) as [[[s2 rest2] any2]| |] eqn:E2;
        simpl in Hrun; try discriminate.
      injection Hrun as <- <- <-. exact (IH _ _ _ _ E2).
Qed.

Lemma fill_sheet_grows (fuel : nat) (s s' : Sheet.t) (pool pool' : list Rectangle.t) :
  fill_sheet fuel s pool = Ok (s', pool') ->
  (s' = s /\ pool' = pool)
  \/ (length (Sheet.placed_rectangles s) < length (Sheet.placed_rectangles s'))%nat.
Proof.
  revert s pool. induction fuel as [|fuel IH]; intros s pool Hrun; [discriminate|].
  rewrite fill_sheet_S in Hrun.
  destruct (place_pass s pool) as [[[s1 pool1] any]| |] eqn:E; simpl in Hrun;
    try discriminate.
  destruct any.
  - right. destruct (place_pass_grows _ _ _ _ _ E) as [_ Hlt]. specialize (Hlt eq_refl).
    destruct (IH _ _ Hrun) as [[-> _]|Hlt']; lia.
  - injection Hrun as <- <-. left.
    destruct (place_pass_nothing _ _ _ _ E) as (-> & -> & _). auto.
Qed.

Lemma all_placed_cons (s : Sheet.t) (sheets : list Sheet.t) :
  all_placed (s :: sheets) = Sheet.placed_rectangles s ++ all_placed sheets.
Proof. reflexivity. Qed.

Lemma elem_of_all_placed (p : Rectangle.t) (sheets : list Sheet.t) :
  p ∈ all_placed sheets <-> exists t, t ∈ sheets /\ p ∈ Sheet.placed_rectangles t.
Proof.
  induction sheets as [|s sheets IH].
  - split; [intros H; inversion H | intros (t & H & _); inversion H].
  - rewrite all_placed_cons, elem_of_app, IH. split.
    + intros [H|(t & Ht & Hp)].
      * exists s. split; [apply elem_of_cons; left; reflexivity | exact H].
      * exists t. split; [apply elem_of_cons; right; exact Ht | exact Hp].
    + intros (t & Ht & Hp). apply elem_of_cons in Ht as [->|Ht]; [left; exact Hp|].
      right. exists t. auto.
Qed.

Lemma elem_of_map_requested (q : Rectangle.t) (l : list Rectangle.t) :
  q ∈ map requested l <-> exists r, r ∈ l /\ requested r = q.
Proof.
  induction l as [|a l IH]; simpl.
  - split; [intros H; inversion H | intros (r & H & _); inversion H].
  - rewrite elem_of_cons, IH. split.
    + intros [->|(r & Hr & Heq)].
      * exists a. split; [apply elem_of_cons; left; reflexivity | reflexivity].
      * exists r. split; [apply elem_of_cons; right; exact Hr | exact Heq].
    + intros (r & Hr & Heq). apply elem_of_cons in Hr as [->|Hr]; [left; auto|].
      right. exists r. auto.
Qed.

(** The sheets a run returns, read together: they hold the pieces of the
    pool and no others, none of them is empty, and no piece of a later sheet
    fits a free region of an earlier one. *)
Lemma pack_loop_result (fuel : nat) (stock : StockSheet.t) (sheets : list Sheet.t)
    (pool : list Rectangle.t) (res : list Sheet.t) :
  pack_loop fuel stock sheets pool = Ok res ->
  exists news,
    res = sheets ++ news
    /\ map requested (all_placed news) ≡ₚ map requested pool
    /\ Forall (fun s => Sheet.placed_rectangles s <> []) news
    /\ pairwise unfit_on news.
Proof.
  revert sheets pool res. induction fuel as [|fuel IH]; intros sheets pool res Hrun.
  - destruct pool; [|discriminate]. injection Hrun as <-.
    exists []. rewrite app_nil_r. repeat split; constructor.
  - destruct pool as [|r rest].
    { injection Hrun as <-. exists []. rewrite app_nil_r. repeat split; constructor. }
    rewrite pack_loop_S in Hrun.
    destruct (fill_sheet fuel (Sheet.new stock) (r :: rest)) as [[s1 pool1]| |] eqn:E;
      simpl in Hrun; try discriminate.
    destruct (fill_sheet_result _ _ _ _ _ E) as [Hperm Hlast]. simpl in Hperm.
    destruct (IH _ _ _ Hrun) as (news & -> & Hperm' & Hne & Hpw).
    exists (s1 :: news). rewrite <- app_assoc. split; [reflexivity|].
    split; [|split].
    + rewrite all_placed_cons, map_app, Hperm'. exact Hperm.
    + constructor; [|exact Hne].
      destruct (fill_sheet_grows _ _ _ _ _ E) as [[-> ->]|Hlt].
      * rewrite (pack_loop_stuck fuel stock _ (r :: rest)) in Hrun;
          [discriminate | discriminate | exact Hlast].
      * intros Hnil. rewrite Hnil in Hlt. simpl in Hlt. lia.
    + split; [|exact Hpw].
      destruct (place_pass_nothing _ _ _ _ Hlast) as (_ & _ & Hnone).
      rewrite Forall_forall. intros t Ht p Hp.
      assert (Hin : requested p ∈ map requested pool1).
      { rewrite <- Hperm'. apply elem_of_map_requested. exists p.
        split; [|reflexivity]. apply elem_of_all_placed. exists t. auto. }
      apply elem_of_map_requested in Hin as (r0 & Hr0 & Heq).
      rewrite <- find_best_space_requested, <- Heq, find_best_space_requested.
      exact (Hnone r0 Hr0).
Qed.

Lemma optimize_cutting_unfold (inventory : GlassInventory.t) (fuel : nat)
    (glass_code : string) (pieces : list (Z * Z * Z)) (stock : StockSheet.t) :
  GlassInventory.get_stock_sheet inventory glass_code = Ok stock ->
  optimize_cutting inventory fuel glass_code pieces
  = pack_loop fuel stock []
      (sort_desc (create_rectangles (StockSheet.thickness_mm stock) pieces)).
Proof. intros H. unfold optimize_cutting. rewrite H. reflexivity. Qed.

Lemma get_stock_sheet_Ok (inventory : GlassInventory.t) (code : string)
    (stock : StockSheet.t) :
  GlassInventory.get_stock_sheet inventory code = Ok stock <->
  GlassInventory.stock_sizes inventory !! code = Some stock.
Proof.
  unfold GlassInventory.get_stock_sheet.
  destruct (GlassInventory.stock_sizes inventory !! code);
    split; intros H; try discriminate; congruence.
Qed.

Lemma requested_create_rectangles (th : Z) (pieces : list (Z * Z * Z)) :
  map requested (create_rectangles th pieces) = create_rectangles th pieces.
Proof.
  induction pieces as [|[[w h] q] pieces IH]; simpl; [reflexivity|].
  rewrite map_app, IH. f_equal.
  induction (Z.to_nat q) as [|n IHn]; simpl; [reflexivity|]. rewrite IHn. reflexivity.
Qed.

(** The facts of [pack_loop_result] for a whole call. *)
Lemma optimize_cutting_result (inventory : GlassInventory.t) (fuel : nat)
    (glass_code : string) (pieces : list (Z * Z * Z)) (sheets : list Sheet.t) :
  optimize_cutting inventory fuel glass_code pieces = Ok sheets ->
  exists stock,
    GlassInventory.stock_sizes inventory !! glass_code = Some stock
    /\ map requested (all_placed sheets)
       ≡ₚ create_rectangles (StockSheet.thickness_mm stock) pieces
    /\ Forall (fun s => Sheet.placed_rectangles s <> []) sheets
    /\ pairwise unfit_on sheets.
Proof.
  intros Hrun. unfold optimize_cutting, GlassInventory.get_stock_sheet in Hrun.
  destruct (GlassInventory.stock_sizes inventory !! glass_code) as [stock|] eqn:E;
    simpl in Hrun; try discriminate.
  exists stock. split; [reflexivity|].
  destruct (pack_loop_result _ _ _ _ _ Hrun) as (news & -> & Hperm & Hne & Hpw).
  simpl. rewrite Hperm, sort_desc_perm, requested_create_rectangles. auto.
Qed.

(** X3: [optimize_cutting] raises exactly for a material code the inventory
    does not hold, and then the [ValueError] of [get_stock_sheet]; for a known
    code no demand makes it raise: the [pop] in [place_rectangle] is always in
    range. *)
Theorem raises_only_for_unknown_code (inventory : GlassInventory.t) (fuel : nat)
    (glass_code : string) (pieces : list (Z * Z * Z)) (e : exn) :
  optimize_cutting inventory fuel glass_code pieces = Raise e <->
  GlassInventory.stock_sizes inventory !! glass_code = None
  /\ e = ValueError ("No stock sheet available for code " +:+ glass_code).
Proof.
  unfold optimize_cutting, GlassInventory.get_stock_sheet.
  destruct (GlassInventory.stock_sizes inventory !! glass_code) as [stock|] eqn:E; simpl.
  - split; [|intros [? _]; discriminate].
    intros Hrun.
    pose proof (pack_loop_spec (fun _ => True) stock fuel []
                  (sort_desc (create_rectangles (StockSheet.thickness_mm stock) pieces))
                  (Forall_true _ _ (fun _ => I))) as Hspec.
    rewrite Hrun in Hspec. destruct Hspec.
  - split; [intros [= <-]; auto | intros [_ ->]; reflexivity].
Qed.

(** X4: every sheet [optimize_cutting] returns is a sheet of the stock the
    inventory holds for the code: it refers to that stock sheet and has its
    width, height and thickness. *)
Theorem sheets_of_the_stock (inventory : GlassInventory.t) (fuel : nat)
    (glass_code : string) (pieces : list (Z * Z * Z)) (sheets : list Sheet.t)
    (stock : StockSheet.t) (s : Sheet.t) :
  GlassInventory.get_stock_sheet inventory glass_code = Ok stock ->
  optimize_cutting inventory fuel glass_code pieces = Ok sheets ->
  s ∈ sheets ->
  Sheet.stock_sheet s = stock
  /\ Sheet.width s = StockSheet.width_mm stock
  /\ Sheet.height s = StockSheet.height_mm stock
  /\ Sheet.thickness s = StockSheet.thickness_mm stock.
Proof.
  intros Hstock Hrun Hs.
  destruct (optimize_cutting_spec (fun _ => True) _ _ _ _ _
              (fun th => Forall_true _ _ (fun _ => I)) Hrun)
    as (stock' & Hstock' & Hsheets & _).
  apply get_stock_sheet_Ok in Hstock. rewrite Hstock in Hstock'.
  injection Hstock' as <-.
  rewrite Forall_forall in Hsheets. exact (packing_state_stock _ _ _ (Hsheets s Hs)).
Qed.

Lemma sheets_of_the_stock_witness :
  GlassInventory.get_stock_sheet GlassInventory.init "CL6" = Ok CL6
  /\ optimize_cutting GlassInventory.init 3 "CL6" [(500, 500, 2)] = Ok [pair_sheet]
  /\ Sheet.stock_sheet pair_sheet = CL6
  /\ Sheet.width pair_sheet = StockSheet.width_mm CL6
  /\ Sheet.height pair_sheet = StockSheet.height_mm CL6
  /\ Sheet.thickness pair_sheet = StockSheet.thickness_mm CL6.
Proof.
  assert (H1 : GlassInventory.get_stock_sheet GlassInventory.init "CL6" = Ok CL6)
    by (vm_compute; reflexivity).
  assert (H2 : optimize_cutting GlassInventory.init 3 "CL6" [(500, 500, 2)]
               = Ok [pair_sheet]) by (vm_compute; reflexivity).
  split; [exact H1|]. split; [exact H2|].
  apply (sheets_of_the_stock GlassInventory.init 3 "CL6" [(500, 500, 2)]
           [pair_sheet] CL6 pair_sheet H1 H2).
  apply list_elem_of_singleton. reflexivity.
Defined.

(** X5: no sheet [optimize_cutting] returns is empty, so it never returns
    more sheets than it placed pieces. *)
Theorem no_empty_sheet (inventory : GlassInventory.t) (fuel : nat)
    (glass_code : string) (pieces : list (Z * Z * Z)) (sheets : list Sheet.t) :
  optimize_cutting inventory fuel glass_code pieces = Ok sheets ->
  Forall (fun s => Sheet.placed_rectangles s <> []) sheets
  /\ (length sheets <= total_placed sheets)%nat.
Proof.
  intros Hrun.
  assert (Hne : Forall (fun s => Sheet.placed_rectangles s <> []) sheets).
  { destruct (optimize_cutting_result _ _ _ _ _ Hrun) as (stock & _ & _ & Hne & _).
    exact Hne. }
  split; [exact Hne|]. clear Hrun.
  induction Hne as [|s sheets Hs _ IH]; simpl; [lia|].
  unfold total_placed in *. simpl.
  destruct (Sheet.placed_rectangles s); [contradiction|]. simpl. lia.
Qed.

Lemma no_empty_sheet_witness :
  optimize_cutting GlassInventory.init 3 "CL6" [(500, 500, 2)] = Ok [pair_sheet]
  /\ Forall (fun s => Sheet.placed_rectangles s <> []) [pair_sheet]
  /\ (length [pair_sheet] <= total_placed [pair_sheet])%nat.
Proof.
  assert (H : optimize_cutting GlassInventory.init 3 "CL6" [(500, 500, 2)]
              = Ok [pair_sheet]) by (vm_compute; reflexivity).
  split; [exact H|].
  exact (no_empty_sheet GlassInventory.init 3 "CL6" [(500, 500, 2)] [pair_sheet] H).
Defined.

(** X6: the pieces on the returned sheets are, up to their order, exactly
    the rectangles the demand was expanded to, one per requested unit: width,
    height, quantity 1 and the thickness of the stock are those of the
    request, and only the rotation flag and the position were written. *)
Theorem pieces_preserved (inventory : GlassInventory.t) (fuel : nat)
    (glass_code : string) (pieces : list (Z * Z * Z)) (sheets : list Sheet.t)
    (stock : StockSheet.t) :
  GlassInventory.get_stock_sheet inventory glass_code = Ok stock ->
  optimize_cutting inventory fuel glass_code pieces = Ok sheets ->
  map requested (all_placed sheets)
  ≡ₚ flat_map (fun pc => replicate (Z.to_nat pc.2)
                           (Rectangle.new pc.1.1 pc.1.2 1
                              (Some (StockSheet.thickness_mm stock))))
              pieces.
Proof.
  intros Hstock Hrun.
  destruct (optimize_cutting_result _ _ _ _ _ Hrun) as (stock' & Hstock' & Hperm & _).
  apply get_stock_sheet_Ok in Hstock. rewrite Hstock in Hstock'. injection Hstock' as <-.
  rewrite Hperm. unfold create_rectangles.
  assert (Heq : forall l : list (Z * Z * Z),
            flat_map (fun '(width, height, quantity) =>
                        replicate (Z.to_nat quantity)
                          (Rectangle.new width height 1
                             (Some (StockSheet.thickness_mm stock)))) l
            = flat_map (fun pc => replicate (Z.to_nat pc.2)
                          (Rectangle.new pc.1.1 pc.1.2 1
                             (Some (StockSheet.thickness_mm stock)))) l).
  { induction l as [|[[w h] q] l IH]; simpl; [reflexivity|]. rewrite IH. reflexivity. }
  rewrite Heq. reflexivity.
Qed.

Lemma pieces_preserved_witness :
  GlassInventory.get_stock_sheet GlassInventory.init "CL6" = Ok CL6
  /\ optimize_cutting GlassInventory.init 3 "CL6" [(500, 500, 2)] = Ok [pair_sheet]
  /\ map requested (all_placed [pair_sheet]) ≡ₚ [square_piece; square_piece].
Proof.
  assert (H1 : GlassInventory.get_stock_sheet GlassInventory.init "CL6" = Ok CL6)
    by (vm_compute; reflexivity).
  assert (H2 : optimize_cutting GlassInventory.init 3 "CL6" [(500, 500, 2)]
               = Ok [pair_sheet]) by (vm_compute; reflexivity).
  split; [exact H1|]. split; [exact H2|].
  exact (pieces_preserved GlassInventory.init 3 "CL6" [(500, 500, 2)]
           [pair_sheet] CL6 H1 H2).
Defined.

(** ** Areas of a run *)

Lemma sum_piece_areas_app (l1 l2 : list Rectangle.t) :
  sum_piece_areas (l1 ++ l2) = sum_piece_areas l1 + sum_piece_areas l2.
Proof. induction l1 as [|r l1 IH]; simpl; [reflexivity|]. rewrite IH. lia. Qed.

Lemma sum_piece_areas_perm (l1 l2 : list Rectangle.t) :
  l1 ≡ₚ l2 -> sum_piece_areas l1 = sum_piece_areas l2.
Proof. induction 1; simpl; lia. Qed.

Lemma sum_piece_areas_requested (l : list Rectangle.t) :
  sum_piece_areas (map requested l) = sum_piece_areas l.
Proof. induction l as [|r l IH]; simpl; [reflexivity|]. rewrite IH. reflexivity. Qed.

Lemma sum_piece_areas_replicate (n : nat) (r : Rectangle.t) :
  sum_piece_areas (replicate n r)
  = Rectangle.width r * Rectangle.height r * Z.of_nat n.
Proof. induction n as [|n IH]; simpl; [lia|]. rewrite IH. lia. Qed.

Lemma sum_piece_areas_create (th : Z) (pieces : list (Z * Z * Z)) :
  Forall (fun pc => 0 <= pc.2) pieces ->
  sum_piece_areas (create_rectangles th pieces) = demand_area pieces.
Proof.
  induction 1 as [|[[w h] q] pieces Hq _ IH]; simpl; [reflexivity|].
  rewrite sum_piece_areas_app, sum_piece_areas_replicate, IH. simpl in *.
  rewrite Z2Nat.id by exact Hq. reflexivity.
Qed.

Lemma summary_used_area_all_placed (sheets : list Sheet.t) :
  summary_used_area sheets = sum_piece_areas (all_placed sheets).
Proof.
  induction sheets as [|s sheets IH]; simpl; [reflexivity|].
  rewrite all_placed_cons, sum_piece_areas_app, IH. reflexivity.
Qed.

Lemma packing_state_positive (stock : StockSheet.t) (s : Sheet.t) :
  packing_state positive_dims stock s ->
  Forall positive_dims (Sheet.placed_rectangles s).
Proof.
  intros Hs. rewrite Forall_forall. intros p Hp.
  destruct (packing_state_history _ _ _ _ Hs Hp) as (s0 & r & sp & i & rot & _ & Hr & _ & ->).
  exact Hr.
Qed.

Lemma sum_piece_areas_pos (l : list Rectangle.t) :
  Forall positive_dims l -> l <> [] -> 0 < sum_piece_areas l.
Proof.
  intros Hl Hne.
  assert (Hnn : forall l', Forall positive_dims l' -> 0 <= sum_piece_areas l').
  { induction 1 as [|r l' [Hw Hh] _ IH]; simpl; [lia|]. nia. }
  destruct Hl as [|r l [Hw Hh] Hl]; [contradiction|]. simpl.
  specialize (Hnn l Hl). nia.
Qed.

(** X7: on integer lengths, on every sheet returned for a demand of pieces
    with positive dimensions from an inventory built through the catalog's
    own functions, the areas of the placed pieces and of the free regions add
    up to the area of the sheet, and the used area is positive and at most
    the area of the sheet. *)
Theorem sheet_area_accounting (inventory : GlassInventory.t) (fuel : nat)
    (glass_code : string) (pieces : list (Z * Z * Z)) (sheets : list Sheet.t)
    (s : Sheet.t) :
  built inventory ->
  Forall piece_positive pieces ->
  optimize_cutting inventory fuel glass_code pieces = Ok sheets ->
  s ∈ sheets ->
  used_area s + sum_areas (Sheet.spaces s) = total_area s
  /\ 0 < used_area s <= total_area s.
Proof.
  intros Hbuilt Hpos Hrun Hs.
  destruct (optimize_cutting_spec positive_dims _ _ _ _ _ (positive_rectangles _ Hpos) Hrun)
    as (stock & Hstock & Hsheets & _).
  rewrite Forall_forall in Hsheets. specialize (Hsheets s Hs).
  assert (Hstockpos : StockSheet.positive stock).
  { exact (built_positive inventory glass_code stock Hbuilt Hstock). }
  destruct (packing_state_area stock s Hstockpos Hsheets) as (_ & _ & Hsum).
  destruct (packing_state_area_bounds stock s Hstockpos Hsheets) as (_ & _ & Hle).
  split; [exact Hsum|]. split; [|exact Hle].
  destruct (optimize_cutting_result _ _ _ _ _ Hrun) as (stock' & _ & _ & Hne & _).
  rewrite Forall_forall in Hne.
  exact (sum_piece_areas_pos _ (packing_state_positive _ _ Hsheets) (Hne s Hs)).
Qed.

Lemma sheet_area_accounting_witness :
  built GlassInventory.init
  /\ Forall piece_positive [(500, 500, 2)]
  /\ optimize_cutting GlassInventory.init 3 "CL6" [(500, 500, 2)] = Ok [pair_sheet]
  /\ used_area pair_sheet + sum_areas (Sheet.spaces pair_sheet) = total_area pair_sheet
  /\ 0 < used_area pair_sheet <= total_area pair_sheet.
Proof.
  assert (H1 : Forall piece_positive [(500, 500, 2)]).
  { constructor; [|constructor]. unfold piece_positive. simpl. lia. }
  assert (H2 : optimize_cutting GlassInventory.init 3 "CL6" [(500, 500, 2)]
               = Ok [pair_sheet]) by (vm_compute; reflexivity).
  refine (conj built_init (conj H1 (conj H2 _))).
  apply (sheet_area_accounting GlassInventory.init 3 "CL6" [(500, 500, 2)]
           [pair_sheet] pair_sheet built_init H1 H2).
  apply list_elem_of_singleton. reflexivity.
Defined.

(** X8: on integer lengths, the used area the summary reports, summed over
    the returned sheets, is the area the demand asked for: the sum over its
    lines of width times height times quantity (no quantity being
    negative). *)
Theorem used_area_is_demand_area (inventory : GlassInventory.t) (fuel : nat)
    (glass_code : string) (pieces : list (Z * Z * Z)) (sheets : list Sheet.t) :
  Forall (fun pc => 0 <= pc.2) pieces ->
  optimize_cutting inventory fuel glass_code pieces = Ok sheets ->
  summary_used_area sheets = demand_area pieces.
Proof.
  intros Hq Hrun.
  destruct (optimize_cutting_result _ _ _ _ _ Hrun) as (stock & _ & Hperm & _).
  rewrite summary_used_area_all_placed, <- sum_piece_areas_requested.
  rewrite (sum_piece_areas_perm _ _ Hperm). apply sum_piece_areas_create. exact Hq.
Qed.

Lemma used_area_is_demand_area_witness :
  Forall (fun pc : Z * Z * Z => 0 <= pc.2) [(500, 500, 2)]
  /\ optimize_cutting GlassInventory.init 3 "CL6" [(500, 500, 2)] = Ok [pair_sheet]
  /\ summary_used_area [pair_sheet] = demand_area [(500, 500, 2)].
Proof.
  assert (H1 : Forall (fun pc : Z * Z * Z => 0 <= pc.2) [(500, 500, 2)]).
  { constructor; [|constructor]. simpl. lia. }
  assert (H2 : optimize_cutting GlassInventory.init 3 "CL6" [(500, 500, 2)]
               = Ok [pair_sheet]) by (vm_compute; reflexivity).
  refine (conj H1 (conj H2 _)).
  exact (used_area_is_demand_area GlassInventory.init 3 "CL6" [(500, 500, 2)]
           [pair_sheet] H1 H2).
Defined.

(** X9: on integer lengths, for a demand of pieces with positive dimensions
    and an inventory built through the catalog's own functions, the total
    area of the summary is the number of returned sheets times the area of
    the stock sheet, the used area never exceeds it, and it is zero, the case
    the summary guards its division against, exactly when no sheet was
    returned. *)
Theorem summary_totals (inventory : GlassInventory.t) (fuel : nat)
    (glass_code : string) (pieces : list (Z * Z * Z)) (sheets : list Sheet.t)
    (stock : StockSheet.t) :
  built inventory ->
  Forall piece_positive pieces ->
  GlassInventory.get_stock_sheet inventory glass_code = Ok stock ->
  optimize_cutting inventory fuel glass_code pieces = Ok sheets ->
  summary_total_area sheets
  = Z.of_nat (length sheets) * (StockSheet.width_mm stock * StockSheet.height_mm stock)
  /\ 0 <= summary_used_area sheets <= summary_total_area sheets
  /\ ((summary_total_area sheets >? 0) = false <-> sheets = []).
Proof.
  intros Hbuilt Hpos Hstock Hrun.
  destruct (optimize_cutting_spec positive_dims _ _ _ _ _ (positive_rectangles _ Hpos) Hrun)
    as (stock' & Hstock' & Hsheets & _).
  apply get_stock_sheet_Ok in Hstock. rewrite Hstock in Hstock'. injection Hstock' as <-.
  pose proof (built_positive inventory glass_code stock Hbuilt Hstock) as Hsp.
  assert (Htot : summary_total_area sheets
                 = Z.of_nat (length sheets)
                   * (StockSheet.width_mm stock * StockSheet.height_mm stock)
                 /\ 0 <= summary_used_area sheets <= summary_total_area sheets).
  { clear Hrun. induction Hsheets as [|s sheets Hs _ IH]; simpl; [lia|].
    destruct IH as [IH1 IH2].
    destruct (packing_state_stock _ _ _ Hs) as (_ & HW & HH & _).
    destruct (packing_state_area_bounds stock s Hsp Hs) as (_ & Hu).
    unfold total_area in Hu. rewrite HW, HH in *. split; lia. }
  destruct Htot as [Htot Hused]. split; [exact Htot|]. split; [exact Hused|].
  destruct Hsp as (_ & HW & HH).
  destruct (Z.gtb_spec (summary_total_area sheets) 0) as [Hgt|Hle].
  - split; [discriminate|]. intros ->. simpl in Hgt. lia.
  - split; [|reflexivity]. intros _. destruct sheets as [|s sheets]; [reflexivity|].
    simpl length in Htot. nia.
Qed.

Lemma summary_totals_witness :
  built GlassInventory.init
  /\ Forall piece_positive [(500, 500, 2)]
  /\ GlassInventory.get_stock_sheet GlassInventory.init "CL6" = Ok CL6
  /\ optimize_cutting GlassInventory.init 3 "CL6" [(500, 500, 2)] = Ok [pair_sheet]
  /\ summary_total_area [pair_sheet]
     = Z.of_nat (length [pair_sheet])
       * (StockSheet.width_mm CL6 * StockSheet.height_mm CL6)
  /\ 0 <= summary_used_area [pair_sheet] <= summary_total_area [pair_sheet]
  /\ ((summary_total_area [pair_sheet] >? 0) = false <-> [pair_sheet] = []).
Proof.
  assert (H1 : Forall piece_positive [(500, 500, 2)]).
  { constructor; [|constructor]. unfold piece_positive. simpl. lia. }
  assert (H2 : GlassInventory.get_stock_sheet GlassInventory.init "CL6" = Ok CL6)
    by (vm_compute; reflexivity).
  assert (H3 : optimize_cutting GlassInventory.init 3 "CL6" [(500, 500, 2)]
               = Ok [pair_sheet]) by (vm_compute; reflexivity).
  refine (conj built_init (conj H1 (conj H2 (conj H3 _)))).
  exact (summary_totals GlassInventory.init 3 "CL6" [(500, 500, 2)] [pair_sheet] CL6
           built_init H1 H2 H3).
Defined.

(** X10: sheets are closed only when nothing more fits.  Of two returned
    sheets, no piece placed on the later one fits any free region the earlier
    one is left with, in any orientation the search allows. *)
Theorem later_pieces_fit_no_earlier_sheet (inventory : GlassInventory.t) (fuel : nat)
    (glass_code : string) (pieces : list (Z * Z * Z)) (sheets : list Sheet.t)
    (i j : nat) (s t : Sheet.t) (p : Rectangle.t) :
  optimize_cutting inventory fuel glass_code pieces = Ok sheets ->
  (i < j)%nat -> sheets !! i = Some s -> sheets !! j = Some t ->
  p ∈ Sheet.placed_rectangles t ->
  Sheet.find_best_space s p = (None, -1, false)
  /\ forall (k : nat) sp o, Sheet.spaces s !! k = Some sp -> ~ fits p sp o.
Proof.
  intros Hrun Hij Hi Hj Hp.
  destruct (optimize_cutting_result _ _ _ _ _ Hrun) as (stock & _ & _ & _ & Hpw).
  pose proof (pairwise_lookup unfit_on sheets i j s t Hpw Hij Hi Hj p Hp) as Hnone.
  split; [exact Hnone|].
  apply find_best_space_None in Hnone as (_ & _ & Hno). exact Hno.
Qed.

Lemma later_pieces_fit_no_earlier_sheet_witness :
  optimize_cutting GlassInventory.init 4 "CL6" [(2000, 1500, 2)]
  = Ok [wide_sheet; wide_sheet]
  /\ Sheet.find_best_space wide_sheet (committed wide_piece (0, 0, 3300, 2600) false)
     = (None, -1, false)
  /\ forall (k : nat) sp o,
       Sheet.spaces wide_sheet !! k = Some sp ->
       ~ fits (committed wide_piece (0, 0, 3300, 2600) false) sp o.
Proof.
  assert (H : optimize_cutting GlassInventory.init 4 "CL6" [(2000, 1500, 2)]
              = Ok [wide_sheet; wide_sheet]) by (vm_compute; reflexivity).
  split; [exact H|].
  apply (later_pieces_fit_no_earlier_sheet GlassInventory.init 4 "CL6"
           [(2000, 1500, 2)] [wide_sheet; wide_sheet] 0%nat 1%nat
           wide_sheet wide_sheet _ H).
  - lia.
  - reflexivity.
  - reflexivity.
  - apply list_elem_of_singleton. reflexivity.
Defined.

(** ** [place_rectangle] on its own *)



(** ** The order of the pool *)

Lemma insert_desc_sorted (r : Rectangle.t) (l : list Rectangle.t) :
  StronglySorted (fun a b => area b <= area a) l ->
  StronglySorted (fun a b => area b <= area a) (insert_desc r l).
Proof.
  induction 1 as [|r' l Hl IH Hall]; simpl.
  - constructor; constructor.
  - destruct (Z.leb_spec (area r') (area r)) as [Hle|Hgt].
    + constructor; [constructor; assumption|].
      constructor; [exact Hle|].
      eapply Forall_impl; [exact Hall|]. simpl. intros b Hb. lia.
    + constructor; [exact IH|].
      rewrite insert_desc_perm. constructor; [lia|exact Hall].
Qed.

Lemma insert_desc_filter (k : Z) (r : Rectangle.t) (l : list Rectangle.t) :
  StronglySorted (fun a b => area b <= area a) l ->
  filter (fun a => area a = k) (insert_desc r l)
  = filter (fun a => area a = k) (r :: l).
Proof.
  induction 1 as [|r' l Hl IH Hall]; simpl; [reflexivity|].
  destruct (Z.leb_spec (area r') (area r)) as [Hle|Hgt]; [reflexivity|].
  rewrite !filter_cons in *.
  destruct (decide (area r = k)) as [Hr|Hr]; destruct (decide (area r' = k)) as [Hr'|Hr'];
    try lia; rewrite IH; reflexivity.
Qed.

(** X12: the pool the packing loop works through is the expanded demand in
    descending order of area, and the sort is stable: pieces of one area keep
    the order in which the demand listed them. *)
Theorem pool_sorted_by_area (l : list Rectangle.t) :
  StronglySorted (fun a b => area b <= area a) (sort_desc l)
  /\ sort_desc l ≡ₚ l
  /\ forall k, filter (fun a => area a = k) (sort_desc l)
               = filter (fun a => area a = k) l.
Proof.
  assert (Hs : StronglySorted (fun a b => area b <= area a) (sort_desc l)).
  { induction l as [|r l IH]; simpl; [constructor|]. apply insert_desc_sorted. exact IH. }
  split; [exact Hs|]. split; [apply sort_desc_perm|].
  intros k. clear Hs. induction l as [|r l IH]; simpl; [reflexivity|].
  rewrite insert_desc_filter.
  - rewrite !filter_cons, IH. reflexivity.
  - clear IH. induction l as [|r' l IH]; simpl; [constructor|].
    apply insert_desc_sorted. exact IH.
Qed.

(** X13: a call that returns was given no piece it cannot cut: for a demand
    of pieces with positive dimensions, every line requested at least once
    fits the stock sheet in one of the two orientations. *)
Theorem returns_only_if_all_fit (inventory : GlassInventory.t) (fuel : nat)
    (glass_code : string) (pieces : list (Z * Z * Z)) (sheets : list Sheet.t)
    (stock : StockSheet.t) (w h q : Z) :
  Forall piece_positive pieces ->
  GlassInventory.get_stock_sheet inventory glass_code = Ok stock ->
  optimize_cutting inventory fuel glass_code pieces = Ok sheets ->
  (w, h, q) ∈ pieces -> 0 < q ->
  piece_fits stock (w, h, q).
Proof.
  intros Hpos Hstock Hrun Hin Hq.
  destruct (Z_le_dec w (StockSheet.width_mm stock)) as [H1|H1];
    destruct (Z_le_dec h (StockSheet.height_mm stock)) as [H2|H2];
    try (left; simpl; lia);
    destruct (Z_le_dec h (StockSheet.width_mm stock)) as [H3|H3];
    destruct (Z_le_dec w (StockSheet.height_mm stock)) as [H4|H4];
    try (right; simpl; lia).
  all: exfalso.
  all: rewrite (optimize_cutting_unfold _ _ _ _ _ Hstock) in Hrun.
  all: rewrite (pack_loop_diverges positive_dims stock fuel [] _
                  (Rectangle.new w h 1 (Some (StockSheet.thickness_mm stock))))
         in Hrun; try discriminate.
  all: try (rewrite sort_desc_perm; apply create_rectangles_Forall;
            apply positive_rectangles; exact Hpos).
  all: try (rewrite sort_desc_perm; apply create_rectangles_elem with (q := q);
            assumption).
  all: intros s Hs;
       apply (unfittable_no_space positive_dims stock s _ (fun r H => H) Hs);
       unfold fits_stock; simpl; lia.
Qed.

Lemma returns_only_if_all_fit_witness :
  Forall piece_positive [(500, 500, 2)]
  /\ GlassInventory.get_stock_sheet GlassInventory.init "CL6" = Ok CL6
  /\ optimize_cutting GlassInventory.init 3 "CL6" [(500, 500, 2)] = Ok [pair_sheet]
  /\ piece_fits CL6 (500, 500, 2).
Proof.
  assert (H1 : Forall piece_positive [(500, 500, 2)]).
  { constructor; [|constructor]. unfold piece_positive. simpl. lia. }
  assert (H2 : GlassInventory.get_stock_sheet GlassInventory.init "CL6" = Ok CL6)
    by (vm_compute; reflexivity).
  assert (H3 : optimize_cutting GlassInventory.init 3 "CL6" [(500, 500, 2)]
               = Ok [pair_sheet]) by (vm_compute; reflexivity).
  refine (conj H1 (conj H2 (conj H3 _))).
  apply (returns_only_if_all_fit GlassInventory.init 3 "CL6" [(500, 500, 2)]
           [pair_sheet] CL6 500 500 2 H1 H2 H3).
  - apply list_elem_of_singleton. reflexivity.
  - lia.
Defined.

(** ** Item codes (src/utils.py) *)

Example extract_thickness_docstring :
  Utils.extract_thickness (O := unit) (Utils.Str "CC06T") = Ok (Some 6)
  /\ Utils.extract_thickness (O := unit) (Utils.Str "CC10T") = Ok (Some 10)
  /\ Utils.extract_thickness (O := unit) (Utils.Str "CMTB6T") = Ok (Some 6)
  /\ Utils.extract_thickness (O := unit) (Utils.Str "VIDRIO") = Ok None
  /\ Utils.extract_thickness (Utils.Other tt) = Ok None.
Proof. repeat split; reflexivity. Qed.

Example transform_item_name_docstring :
  Utils.transform_item_name (O := unit) (Utils.Str "CC06T") = Ok (Utils.Str "CL6")
  /\ Utils.transform_item_name (O := unit) (Utils.Str "CC10T") = Ok (Utils.Str "CL10")
  /\ Utils.transform_item_name (O := unit) (Utils.Str "CC06") = Ok (Utils.Str "CL6")
  /\ Utils.transform_item_name (O := unit) (Utils.Str "CSLCL06T") = Ok (Utils.Str "CL6").
Proof. repeat split; reflexivity. Qed.

Lemma digits_of_rstrip (c : Ascii.ascii) (s : string) :
  Utils.isdigit c = false -> Utils.digits_of (Utils.rstrip c s) = Utils.digits_of s.
Proof.
  intros Hc. induction s as [|a s IH]; simpl; [reflexivity|].
  destruct (Utils.rstrip c s) as [|b t] eqn:E.
  - simpl in IH. rewrite <- IH.
    destruct (Ascii.eqb_spec a c) as [->|Hne]; simpl.
    + rewrite Hc. reflexivity.
    + destruct (Utils.isdigit a); reflexivity.
  - cbn [Utils.digits_of]. rewrite <- IH. reflexivity.
Qed.

Lemma extract_thickness_digits {O : Type} (s : string) :
  Utils.extract_thickness (O := O) (Utils.Str s)
  = Ok (option_map Z.of_uint (NilZero.uint_of_string (Utils.digits_of s))).
Proof.
  unfold Utils.extract_thickness. rewrite digits_of_rstrip by reflexivity.
  destruct (Utils.digits_of s) as [|a t] eqn:E; [reflexivity|].
  cbn [String.eqb negb]. unfold Utils.int_of_digits.
  destruct (NilZero.uint_of_string (String a t)); reflexivity.
Qed.

Lemma of_uint_nonneg (d : Decimal.uint) : 0 <= Z.of_uint d.
Proof. unfold Z.of_uint. apply N2Z.is_nonneg. Qed.

Lemma extract_thickness_never_raises_aux {O : Type} (s : string) :
  exists r, Utils.extract_thickness (O := O) (Utils.Str s) = Ok r
            /\ forall n, r = Some n -> 0 <= n.
Proof.
  rewrite extract_thickness_digits. eexists. split; [reflexivity|].
  intros n Hn. destruct (NilZero.uint_of_string (Utils.digits_of s)); [|discriminate].
  injection Hn as <-. apply of_uint_nonneg.
Qed.

(** X14: [extract_thickness] never raises, whatever the item: the only
    exception its body can meet is the [ValueError] it catches; and a
    thickness it returns is not negative. *)
Theorem extract_thickness_never_raises {O : Type} (item : Utils.value O) :
  exists r, Utils.extract_thickness item = Ok r /\ forall n, r = Some n -> 0 <= n.
Proof.
  destruct item as [s|o].
  - apply extract_thickness_never_raises_aux.
  - exists None. split; [reflexivity|]. discriminate.
Qed.

(** X15: the thickness read from an item depends on its digit characters
    only: two codes with the same digits in the same order have the same
    thickness, so stripping the trailing T changes nothing. *)
Theorem extract_thickness_reads_digits_only {O : Type} (s s' : string) :
  Utils.digits_of s = Utils.digits_of s' ->
  Utils.extract_thickness (O := O) (Utils.Str s)
  = Utils.extract_thickness (O := O) (Utils.Str s').
Proof. intros H. rewrite !extract_thickness_digits, H. reflexivity. Qed.

Lemma extract_thickness_reads_digits_only_witness :
  Utils.digits_of "CMTB6T" = Utils.digits_of "6mm"
  /\ Utils.extract_thickness (O := unit) (Utils.Str "CMTB6T")
     = Utils.extract_thickness (O := unit) (Utils.Str "6mm").
Proof.
  split; [reflexivity|].
  apply (extract_thickness_reads_digits_only (O := unit) "CMTB6T" "6mm"). reflexivity.
Defined.

Lemma digits_of_string_of_uint (d : Decimal.uint) :
  Utils.digits_of (NilEmpty.string_of_uint d) = NilEmpty.string_of_uint d.
Proof. induction d; cbn; rewrite ?IHd; reflexivity. Qed.

Lemma str_of_int_digits (n : Z) :
  0 <= n -> Utils.digits_of (Utils.str_of_int n) = Utils.str_of_int n.
Proof.
  intros Hn. unfold Utils.str_of_int. destruct n as [|p|p]; [reflexivity| |lia].
  simpl. pose proof (DecimalPos.Unsigned.to_uint_nonnil p) as Hnil.
  unfold NilZero.string_of_uint. destruct (Pos.to_uint p); try contradiction;
    apply digits_of_string_of_uint.
Qed.

Lemma str_of_int_parse (n : Z) :
  0 <= n ->
  option_map Z.of_uint (NilZero.uint_of_string (Utils.str_of_int n)) = Some n.
Proof.
  intros Hn. unfold Utils.str_of_int. destruct n as [|p|p]; [reflexivity| |lia].
  simpl. rewrite NilZero.usu by apply DecimalPos.Unsigned.to_uint_nonnil. simpl.
  f_equal. exact (DecimalZ.of_to (Z.pos p)).
Qed.

Lemma extract_thickness_renamed {O : Type} (n : Z) :
  0 <= n ->
  Utils.extract_thickness (O := O) (Utils.Str ("CL" +:+ Utils.str_of_int n))
  = Ok (Some n).
Proof.
  intros Hn. rewrite extract_thickness_digits.
  change (Utils.digits_of ("CL" +:+ Utils.str_of_int n))
    with (Utils.digits_of (Utils.str_of_int n)).
  rewrite (str_of_int_digits n Hn), (str_of_int_parse n Hn). reflexivity.
Qed.

(** What [transform_item_name] returns: the item itself when it has no
    thickness, and otherwise a code whose thickness is the same. *)
Lemma transform_item_name_result {O : Type} (item v : Utils.value O) :
  Utils.transform_item_name item = Ok v ->
  (Utils.extract_thickness item = Ok None /\ v = item)
  \/ exists n, 0 <= n /\ Utils.extract_thickness item = Ok (Some n)
               /\ v = Utils.Str ("CL" +:+ Utils.str_of_int n).
Proof.
  destruct item as [s|o].
  - destruct (extract_thickness_never_raises_aux (O := O) s) as (r & Hr & Hnn).
    unfold Utils.transform_item_name. rewrite Hr. simpl.
    destruct r as [n|]; intros [= <-].
    + right. exists n. auto.
    + left. auto.
  - intros [= <-]. left. auto.
Qed.

Lemma digits_of_app (a b : string) :
  Utils.digits_of (a +:+ b) = Utils.digits_of a +:+ Utils.digits_of b.
Proof.
  induction a as [|c a IH]; simpl; [reflexivity|].
  destruct (Utils.isdigit c); simpl; rewrite IH; reflexivity.
Qed.

Lemma uint_of_string_bad_char (x y : string) (c : Ascii.ascii) :
  (forall d, uint_of_char c (Some d) = None) ->
  NilZero.uint_of_string (x +:+ String c y) = None.
Proof.
  intros Hc.
  assert (H : NilEmpty.uint_of_string (x +:+ String c y) = None).
  { induction x as [|a x IH]; simpl.
    - destruct (NilEmpty.uint_of_string y); [apply Hc|reflexivity].
    - rewrite IH. reflexivity. }
  destruct x; exact H.
Qed.

(** X16: an item with a superscript one, two or three has no thickness, also
    when it has decimal digits: [isdigit] takes the character, [int] refuses
    it, and the [ValueError] is turned into [None]. *)
Theorem superscript_digit_has_no_thickness {O : Type} (a b : string) (c : Ascii.ascii) :
  nat_of_ascii c = 178%nat \/ nat_of_ascii c = 179%nat \/ nat_of_ascii c = 185%nat ->
  Utils.extract_thickness (O := O) (Utils.Str (a +:+ String c b)) = Ok None
  /\ Utils.transform_item_name (O := O) (Utils.Str (a +:+ String c b))
     = Ok (Utils.Str (a +:+ String c b)).
Proof.
  intros Hc.
  assert (Hex : Utils.extract_thickness (O := O) (Utils.Str (a +:+ String c b)) = Ok None).
  { rewrite extract_thickness_digits, digits_of_app.
    assert (Hd : Utils.isdigit c = true /\ forall d, uint_of_char c (Some d) = None).
    { rewrite <- (ascii_nat_embedding c).
      destruct Hc as [->|[->| ->]]; split; reflexivity. }
    destruct Hd as [Hd Hbad]. simpl. rewrite Hd.
    rewrite (uint_of_string_bad_char _ _ c Hbad). reflexivity. }
  split; [exact Hex|]. unfold Utils.transform_item_name. rewrite Hex. reflexivity.
Qed.

Lemma superscript_digit_has_no_thickness_witness :
  nat_of_ascii (ascii_of_nat 178) = 178%nat
  /\ Utils.extract_thickness (O := unit)
       (Utils.Str ("CC06" +:+ String (ascii_of_nat 178) "T")) = Ok None.
Proof.
  split; [reflexivity|].
  apply (superscript_digit_has_no_thickness (O := unit) "CC06" "T" (ascii_of_nat 178)).
  left. reflexivity.
Defined.

(** X17: renaming twice is renaming once: [transform_item_name] leaves its
    own results unchanged. *)
Theorem transform_item_name_idempotent {O : Type} (item v : Utils.value O) :
  Utils.transform_item_name item = Ok v ->
  Utils.transform_item_name v = Ok v.
Proof.
  intros Hv. destruct (transform_item_name_result item v Hv)
    as [[Hnone ->]|(n & Hn & Hsome & ->)]; [exact Hv|].
  unfold Utils.transform_item_name. rewrite (extract_thickness_renamed n Hn). reflexivity.
Qed.

Lemma transform_item_name_idempotent_witness :
  Utils.transform_item_name (O := unit) (Utils.Str "CSLCL06T") = Ok (Utils.Str "CL6")
  /\ Utils.transform_item_name (O := unit) (Utils.Str "CL6") = Ok (Utils.Str "CL6").
Proof.
  split; [reflexivity|].
  apply (transform_item_name_idempotent (O := unit) (Utils.Str "CSLCL06T")). reflexivity.
Defined.

(** X18: renaming keeps the thickness: [extract_thickness] reads from the
    new name what it read from the item, so the thickness column may be
    computed before or after the names are transformed. *)
Theorem transform_item_name_keeps_thickness {O : Type} (item v : Utils.value O) :
  Utils.transform_item_name item = Ok v ->
  Utils.extract_thickness v = Utils.extract_thickness item.
Proof.
  intros Hv. destruct (transform_item_name_result item v Hv)
    as [[Hnone ->]|(n & Hn & Hsome & ->)]; [reflexivity|].
  rewrite Hsome. apply extract_thickness_renamed. exact Hn.
Qed.

Lemma transform_item_name_keeps_thickness_witness :
  Utils.transform_item_name (O := unit) (Utils.Str "CC10T") = Ok (Utils.Str "CL10")
  /\ Utils.extract_thickness (O := unit) (Utils.Str "CL10")
     = Utils.extract_thickness (O := unit) (Utils.Str "CC10T").
Proof.
  split; [reflexivity|].
  apply (transform_item_name_keeps_thickness (O := unit) (Utils.Str "CC10T")). reflexivity.
Defined.

(** ** Largest first *)

Lemma place_pass_prefix (pool : list Rectangle.t) (s s' : Sheet.t) pool' any :
  place_pass s pool = Ok (s', pool', any) ->
  exists l, Sheet.placed_rectangles s' = Sheet.placed_rectangles s ++ l.
Proof.
  revert s s' pool' any. induction pool as [|r rest IH]; intros s s' pool' any Hrun.
  - injection Hrun as <- <- <-. exists []. rewrite app_nil_r. reflexivity.
  - destruct (Sheet.find_best_space s r) as [[[sp|] i] rot] eqn:E.
    + rewrite (place_pass_placed _ _ rest _ _ _ E),
        (place_after_find _ _ _ _ _ E) in Hrun. simpl in Hrun.
      match type of Hrun with
      | context [place_pass ?s1 rest] =>
          destruct (place_pass s1 rest) as [[[s2 rest2] any2]| |] eqn:E2;
          simpl in Hrun; try discriminate
      end.
      injection Hrun as <- <- <-.
      destruct (IH _ _ _ _ E2) as (l & Hl). simpl in Hl.
      exists (committed r sp rot :: l). rewrite Hl, <- app_assoc. reflexivity.
    + rewrite (place_pass_kept _ _ rest _ _ E) in Hrun.
      destruct (place_pass s rest) as [[[s2 rest2] any2]| |] eqn:E2;
        simpl in Hrun; try discriminate.
      injection Hrun as <- <- <-. exact (IH _ _ _ _ E2).
Qed.

Lemma place_pass_head (s s' : Sheet.t) (r : Rectangle.t) rest pool' any sp i rot :
  Sheet.find_best_space s r = (Some sp, i, rot) ->
  place_pass s (r :: rest) = Ok (s', pool', any) ->
  exists l, Sheet.placed_rectangles s'
            = Sheet.placed_rectangles s ++ committed r sp rot :: l.
Proof.
  intros E Hrun.
  rewrite (place_pass_placed _ _ rest _ _ _ E), (place_after_find _ _ _ _ _ E) in Hrun.
  simpl in Hrun.
  match type of Hrun with
  | context [place_pass ?s1 rest] =>
      destruct (place_pass s1 rest) as [[[s2 rest2] any2]| |] eqn:E2;
      simpl in Hrun; try discriminate
  end.
  injection Hrun as <- <- <-.
  destruct (place_pass_prefix _ _ _ _ _ E2) as (l & Hl). simpl in Hl.
  exists l. rewrite Hl, <- app_assoc. reflexivity.
Qed.

Lemma fill_sheet_prefix (fuel : nat) (s s' : Sheet.t) (pool pool' : list Rectangle.t) :
  fill_sheet fuel s pool = Ok (s', pool') ->
  exists l, Sheet.placed_rectangles s' = Sheet.placed_rectangles s ++ l.
Proof.
  revert s pool. induction fuel as [|fuel IH]; intros s pool Hrun; [discriminate|].
  rewrite fill_sheet_S in Hrun.
  destruct (place_pass s pool) as [[[s1 pool1] any]| |] eqn:E; simpl in Hrun;
    try discriminate.
  destruct (place_pass_prefix _ _ _ _ _ E) as (l & Hl).
  destruct any.
  - destruct (IH _ _ Hrun) as (l' & Hl'). exists (l ++ l').
    rewrite Hl', Hl, <- app_assoc. reflexivity.
  - injection Hrun as <- <-. exists l. exact Hl.
Qed.

Lemma fill_sheet_head (fuel : nat) (s s' : Sheet.t) (r : Rectangle.t) rest pool'
    sp i rot :
  Sheet.find_best_space s r = (Some sp, i, rot) ->
  fill_sheet fuel s (r :: rest) = Ok (s', pool') ->
  exists l, Sheet.placed_rectangles s'
            = Sheet.placed_rectangles s ++ committed r sp rot :: l.
Proof.
  intros E Hrun. destruct fuel as [|fuel]; [discriminate|].
  rewrite fill_sheet_S in Hrun.
  destruct (place_pass s (r :: rest)) as [[[s1 pool1] any]| |] eqn:E1; simpl in Hrun;
    try discriminate.
  destruct (place_pass_head _ _ _ _ _ _ _ _ _ E E1) as (l & Hl).
  destruct any.
  - destruct (fill_sheet_prefix _ _ _ _ _ Hrun) as (l' & Hl'). exists (l ++ l').
    rewrite Hl', Hl, <- !app_assoc. reflexivity.
  - injection Hrun as <- <-. exists l. exact Hl.
Qed.

(** X19: largest first.  For a demand of pieces with positive dimensions,
    the first piece of the first returned sheet lies in the corner [(0, 0)],
    and no piece on any returned sheet has a larger area. *)
Theorem first_piece_is_largest (inventory : GlassInventory.t) (fuel : nat)
    (glass_code : string) (pieces : list (Z * Z * Z)) (s : Sheet.t)
    (sheets : list Sheet.t) (q : Rectangle.t) :
  Forall piece_positive pieces ->
  optimize_cutting inventory fuel glass_code pieces = Ok (s :: sheets) ->
  q ∈ all_placed (s :: sheets) ->
  exists p l,
    Sheet.placed_rectangles s = p :: l
    /\ Rectangle.position p = Some (0, 0)
    /\ Rectangle.width q * Rectangle.height q
       <= Rectangle.width p * Rectangle.height p.
Proof.
  intros Hpos Hrun Hq.
  destruct (optimize_cutting_result _ _ _ _ _ Hrun) as (stock & Hstock & Hperm & _).
  apply get_stock_sheet_Ok in Hstock.
  rewrite (optimize_cutting_unfold _ _ _ _ _ Hstock) in Hrun.
  assert (Hpool : Forall positive_dims
            (sort_desc (create_rectangles (StockSheet.thickness_mm stock) pieces))).
  { rewrite sort_desc_perm. apply create_rectangles_Forall.
    apply positive_rectangles. exact Hpos. }
  assert (Hsorted : StronglySorted (fun a b => area b <= area a)
            (sort_desc (create_rectangles (StockSheet.thickness_mm stock) pieces))).
  { clear. induction (create_rectangles _ pieces) as [|r l IH]; simpl;
      [constructor|]. apply insert_desc_sorted. exact IH. }
  assert (Hin : requested q
                ∈ sort_desc (create_rectangles (StockSheet.thickness_mm stock) pieces)).
  { rewrite sort_desc_perm, <- Hperm. apply elem_of_map_requested. exists q. auto. }
  remember (sort_desc (create_rectangles (StockSheet.thickness_mm stock) pieces))
    as pool eqn:Epool. clear Epool Hperm.
  destruct pool as [|r0 rest]; [inversion Hin|].
  destruct fuel as [|fuel]; [discriminate|].
  pose proof Hrun as Hrun'. rewrite pack_loop_S in Hrun'.
  destruct (fill_sheet fuel (Sheet.new stock) (r0 :: rest)) as [[s1 pool1]| |] eqn:E;
    simpl in Hrun'; try discriminate.
  destruct (pack_loop_result _ _ _ _ _ Hrun') as (news & Hres & _).
  simpl in Hres. injection Hres as <- _.
  destruct (Sheet.find_best_space (Sheet.new stock) r0) as [[[sp|] i] rot] eqn:Efind.
  - destruct (fill_sheet_head _ _ _ _ _ _ _ _ _ Efind E) as (l & Hl). simpl in Hl.
    exists (committed r0 sp rot), l. split; [exact Hl|].
    apply find_best_space_Some in Efind as (H0 & Hl0 & _).
    assert (Hsp : sp = (0, 0, StockSheet.width_mm stock, StockSheet.height_mm stock)).
    { simpl in Hl0. destruct (Z.to_nat i) as [|k]; simpl in Hl0; [congruence|].
      destruct k; discriminate. }
    split; [rewrite Hsp; reflexivity|].
    change (area (requested q) <= area r0).
    apply elem_of_cons in Hin as [->|Hr]; [lia|].
    apply StronglySorted_inv in Hsorted as [_ Hall].
    rewrite Forall_forall in Hall. exact (Hall _ Hr).
  - exfalso.
    rewrite (pack_loop_diverges positive_dims stock (S fuel) [] (r0 :: rest) r0) in Hrun;
      [discriminate | exact Hpool | apply elem_of_cons; left; reflexivity |].
    intros s0 Hs0.
    apply (unfittable_no_space positive_dims stock s0 _ (fun r H => H) Hs0).
    intros Hfit. destruct (fittable_new_sheet stock r0 Hfit) as (sp & i' & rot' & E').
    rewrite E' in Efind. discriminate.
Qed.

Lemma first_piece_is_largest_witness :
  Forall piece_positive [(500, 500, 2)]
  /\ optimize_cutting GlassInventory.init 3 "CL6" [(500, 500, 2)] = Ok [pair_sheet]
  /\ exists p l,
       Sheet.placed_rectangles pair_sheet = p :: l
       /\ Rectangle.position p = Some (0, 0)
       /\ 500 * 500 <= Rectangle.width p * Rectangle.height p.
Proof.
  assert (H1 : Forall piece_positive [(500, 500, 2)]).
  { constructor; [|constructor]. unfold piece_positive. simpl. lia. }
  assert (H2 : optimize_cutting GlassInventory.init 3 "CL6" [(500, 500, 2)]
               = Ok [pair_sheet]) by (vm_compute; reflexivity).
  refine (conj H1 (conj H2 _)).
  apply (first_piece_is_largest GlassInventory.init 3 "CL6" [(500, 500, 2)]
           pair_sheet [] (committed square_piece (0, 500, 500, 2100) false) H1 H2).
  apply elem_of_cons. right. apply elem_of_cons. left. reflexivity.
Defined.

(** ** Quantities *)

Lemma create_rectangles_positive_quantities (th : Z) (pieces : list (Z * Z * Z)) :
  create_rectangles th (filter (fun pc => 0 < pc.2) pieces) = create_rectangles th pieces.
Proof.
  induction pieces as [|[[w h] q] pieces IH]; [reflexivity|].
  rewrite filter_cons. simpl. destruct (decide (0 < q)) as [Hq|Hq]; simpl.
  - rewrite IH. reflexivity.
  - rewrite IH. replace (Z.to_nat q) with 0%nat by lia. reflexivity.
Qed.

(** X20: a line of the demand whose quantity is zero or negative is dropped
    without an error: the call behaves as on the demand without such lines. *)
Theorem nonpositive_quantities_ignored (inventory : GlassInventory.t) (fuel : nat)
    (glass_code : string) (pieces : list (Z * Z * Z)) :
  optimize_cutting inventory fuel glass_code pieces
  = optimize_cutting inventory fuel glass_code (filter (fun pc => 0 < pc.2) pieces).
Proof.
  unfold optimize_cutting.
  destruct (GlassInventory.get_stock_sheet inventory glass_code) as [stock| |];
    simpl; try reflexivity.
  rewrite create_rectangles_positive_quantities. reflexivity.
Qed.

(** * Integer and binary64 lengths *)

(** ** The two embeddings on integer lengths *)

Example float_catalog :
  float_inventory GlassInventory.init = F64.GlassInventory.init.
Proof. vm_compute. reflexivity. Qed.

Example float_run_example_demand :
  F64.optimize_cutting F64.GlassInventory.init 8 "CL6"
    (float_demand [(800, 1200, 2); (500, 500, 3); (1000, 600, 1)])
  = (sheets ← optimize_cutting GlassInventory.init 8 "CL6"
                [(800, 1200, 2); (500, 500, 3); (1000, 600, 1)];
     Ok (map float_sheet sheets)).
Proof. vm_compute. reflexivity. Qed.

Example float_run_two_sheets :
  F64.optimize_cutting F64.GlassInventory.init 4 "CL6" (float_demand [(2000, 1500, 2)])
  = (sheets ← optimize_cutting GlassInventory.init 4 "CL6" [(2000, 1500, 2)];
     Ok (map float_sheet sheets)).
Proof. vm_compute. reflexivity. Qed.

Example float_run_turned_piece :
  F64.optimize_cutting F64.GlassInventory.init 3 "CL6" (float_demand [(2600, 3300, 1)])
  = Ok [float_sheet (Sheet.mk CL6 3300 2600 6
                       [committed tall_piece (0, 0, 3300, 2600) true] [])].
Proof. vm_compute. reflexivity. Qed.

(** [__post_init__] lets a [nan] through: [nan <= 0] is false. *)
Example nan_stock_accepted :
  F64.GlassInventory.add_stock_size F64.GlassInventory.init "X" 6 nan 2600
  = Ok (F64.GlassInventory.mk
          (<["X" := F64.StockSheet.mk 6 nan 2600]>
             (F64.GlassInventory.stock_sizes F64.GlassInventory.init))).
Proof. vm_compute. reflexivity. Qed.

(** ** The efficiency of a sheet *)






(** The report of the sheet of two 500 mm squares: 500000 / 8580000 * 100. *)
Example efficiency_pair_sheet :
  efficiency pair_sheet = Quotient (500000 / 8580000 * 100)%Q.
Proof. reflexivity. Qed.

(** ** The catalog on binary64 lengths *)

(** X2: every stock sheet that [get_stock_sheet] returns from an inventory
    built from the initial catalog by calls of [add_stock_size] that did not
    raise has passed the test of [__post_init__]: its thickness is positive
    and neither its width nor its height is [<= 0].  For a [float] that is
    less than being positive: a [nan] passes. *)
Theorem built_inventory_validated (inv : F64.GlassInventory.t) (code : string)
    (stock : F64.StockSheet.t) :
  F64.built inv ->
  F64.GlassInventory.get_stock_sheet inv code = Ok stock ->
  0 < F64.StockSheet.thickness_mm stock
  /\ (F64.StockSheet.width_mm stock <=? 0)%float = false
  /\ (F64.StockSheet.height_mm stock <=? 0)%float = false.
Proof.
  intros Hbuilt. unfold F64.GlassInventory.get_stock_sheet.
  destruct (F64.GlassInventory.stock_sizes inv !! code) as [stock'|] eqn:Hget;
    [|discriminate].
  intros [= ->]. revert code stock Hget.
  induction Hbuilt as [|inv code' thickness width height inv' Hbuilt IH Hadd];
    intros code stock.
  - unfold F64.GlassInventory.init. simpl.
    rewrite !lookup_insert. repeat case_decide; rewrite ?lookup_empty;
      intros [= <-]; simpl; (split; [lia|split; vm_compute; reflexivity]).
  - unfold F64.GlassInventory.add_stock_size, F64.StockSheet.new in Hadd.
    destruct (thickness <=? 0) eqn:Et; [discriminate|].
    destruct (width <=? 0)%float eqn:Ew; [discriminate|].
    destruct (height <=? 0)%float eqn:Eh; [discriminate|].
    simpl in Hadd. injection Hadd as <-. simpl.
    destruct (decide (code' = code)) as [->|Hne].
    + rewrite lookup_insert_eq. intros [= <-]. simpl.
      apply Z.leb_gt in Et. auto.
    + rewrite lookup_insert_ne by exact Hne. apply IH.
Qed.

Lemma built_inventory_validated_witness :
  F64.built F64.GlassInventory.init
  /\ F64.GlassInventory.get_stock_sheet F64.GlassInventory.init "CL10"
     = Ok (F64.StockSheet.mk 10 3600 2600)
  /\ 0 < F64.StockSheet.thickness_mm (F64.StockSheet.mk 10 3600 2600)
  /\ (F64.StockSheet.width_mm (F64.StockSheet.mk 10 3600 2600) <=? 0)%float = false
  /\ (F64.StockSheet.height_mm (F64.StockSheet.mk 10 3600 2600) <=? 0)%float = false.
Proof.
  split; [apply F64.built_init|]. split; [vm_compute; reflexivity|].
  apply (built_inventory_validated F64.GlassInventory.init "CL10" _ F64.built_init).
  vm_compute. reflexivity.
Defined.
